(** * airscape: a client for AirScape whole-house fans

    A shallow embedding of [airscape/__init__.py] (class [Fan]) and the
    properties of its state refresh, its sanitising line filter and its
    command methods.

    Text is a sequence of Unicode code points, as a Python [str] is.  The
    Python runtime, the [requests] library and the device behind it are
    the environment of the program: they are gathered in the class
    [Platform], over which every definition and theorem is stated. *)

From Stdlib Require Import ZArith NArith Lia.
From stdpp Require Import base option list strings gmap pretty.

Local Open Scope N_scope.

(** ** Text *)

Abbreviation text := (list N).

(** The code points of a literal. *)
Definition codes (s : string) : text :=
  map (fun a => N.of_nat (Ascii.nat_of_ascii a)) (String.list_ascii_of_string s).

Definition dquote : N := 34.
Definition newline : N := 10.

(** A literal between double quotes. *)
Definition quoted (s : string) : text := dquote :: codes s ++ [dquote].

(** ["sep".join(parts)] *)
Fixpoint join (sep : text) (parts : list text) : text :=
  match parts with
  | [] => []
  | [x] => x
  | x :: rest => x ++ sep ++ join sep rest
  end.

(** ** The Python runtime and the network *)

(** JSON values as [json.loads] builds them.  A number written with a
    fraction or an exponent is a Python float; it is carried as an opaque
    value of type [F], and its truth value and its order against an
    integer are taken from the platform. *)
#[local] Unset Elimination Schemes.
Inductive json (F : Type) : Type :=
| JNone
| JBool (b : bool)
| JInt (z : Z)
| JFloat (f : F)
| JStr (s : string)
| JList (l : list (json F))
| JDict (d : gmap string (json F)).

Arguments JNone {F}.
Arguments JBool {F} b.
Arguments JInt {F} z.
Arguments JFloat {F} f.
Arguments JStr {F} s.
Arguments JList {F} l.
Arguments JDict {F} d.
#[local] Set Elimination Schemes.

(** What a call of [requests.get] can come to. *)
Inductive requests_exception :=
| requests_ConnectionError   (* includes ConnectTimeout, a subclass *)
| requests_ReadTimeout
| requests_RequestException. (* any other failure of the library *)

Inductive reply :=
| Response (body : text)     (* the [.text] of the response *)
| Failed (e : requests_exception).

(** [requests.get(url, params={"dir": cmd}, timeout=t)]; the status call
    passes no [params]. *)
Record request (T : Type) := Get { url : string; params : option Z; timeout : T }.
Arguments Get {T} url params timeout.
Arguments url {T} r.
Arguments params {T} r.
Arguments timeout {T} r.

Class Platform := {
  (** Python floats: [bool(x)] and the order of [x] against an integer
      ([None] when [x] is a nan). *)
  pyfloat : Type;
  float_bool : pyfloat -> bool;
  float_cmp : pyfloat -> Z -> option comparison;
  (** The Unicode tables behind [\s] and [\w] above code point 127. *)
  unicode_isspace : N -> bool;
  unicode_isalnum : N -> bool;
  (** [json.loads]; [None] stands for [json.JSONDecodeError]. *)
  json_loads : text -> option (json pyfloat);
  (** [MAX_FAN_SPEED] and [DEFAULT_TIMEOUT], which the module imports from
      [airscape/const.py]: parameters here. *)
  MAX_FAN_SPEED : gmap string Z;
  pytimeout : Type;
  DEFAULT_TIMEOUT : pytimeout;
  (** The network and the fan behind it. *)
  World : Type;
  requests_get : request pytimeout -> World -> reply * World;
  sleep : N -> World -> World   (* milliseconds *)
}.

(** A Python value that came out of [json.loads]. *)
Abbreviation value := (json pyfloat).

Section Airscape.
Context {P : Platform}.

(** ** Regular expressions, as [re] runs them

    A backtracking matcher for the fragment of Python's syntax that the
    module uses.  A position in the text is the character before the
    cursor (if any) and the text from the cursor on. *)

(** [\s] on a [str] pattern. *)
Definition is_space (c : N) : bool :=
  if c <? 128 then (9 <=? c) && (c <=? 13) || (28 <=? c) && (c <=? 32)
  else unicode_isspace c.

(** [\w] on a [str] pattern. *)
Definition is_word (c : N) : bool :=
  if c <? 128 then
    (48 <=? c) && (c <=? 57) || (65 <=? c) && (c <=? 90)
    || (97 <=? c) && (c <=? 122) || (c =? 95)
  else unicode_isalnum c.

(** [.] without [re.S]. *)
Definition is_dot (c : N) : bool := negb (c =? newline).

Inductive regex :=
| Bol                          (* ^ under re.M *)
| Eol                          (* $ under re.M *)
| One (p : N -> bool)          (* one character of a class *)
| Str (l : text)               (* a literal *)
| Star (p : N -> bool)         (* greedy X* over a class X *)
| Seq (a b : regex)
| NotAhead (a : regex).        (* (?!...) *)

(** Greedy [X+]. *)
Definition Plus (p : N -> bool) : regex := Seq (One p) (Star p).

Definition at_bol (prev : option N) : bool :=
  match prev with None => true | Some c => c =? newline end.

Definition at_eol (s : text) : bool :=
  match s with [] => true | c :: _ => c =? newline end.

Abbreviation cont := (option N -> text -> option text).

Fixpoint run_str (l : text) (k : cont) (prev : option N) (s : text) : option text :=
  match l with
  | [] => k prev s
  | c :: l' =>
      match s with
      | d :: s' => if c =? d then run_str l' k (Some d) s' else None
      | [] => None
      end
  end.

(** Longest run first, then one character less, and so on. *)
Fixpoint run_star (p : N -> bool) (k : cont) (prev : option N) (s : text) : option text :=
  match s with
  | c :: s' =>
      if p c then
        match run_star p k (Some c) s' with
        | Some r => Some r
        | None => k prev s
        end
      else k prev s
  | [] => k prev s
  end.

(** [run r k prev s]: match [r] at the position [(prev, s)] and go on with
    [k] at the position where the match ends; the result is the text left
    after the whole match. *)
Fixpoint run (r : regex) (k : cont) (prev : option N) (s : text) : option text :=
  match r with
  | Bol => if at_bol prev then k prev s else None
  | Eol => if at_eol s then k prev s else None
  | One p =>
      match s with
      | c :: s' => if p c then k (Some c) s' else None
      | [] => None
      end
  | Str l => run_str l k prev s
  | Star p => run_star p k prev s
  | Seq a b => run a (run b k) prev s
  | NotAhead a =>
      match run a (fun _ s' => Some s') prev s with
      | Some _ => None
      | None => k prev s
      end
  end.

(** [pattern.match] at one position: the text left after the match. *)
Definition match_at (r : regex) (prev : option N) (s : text) : option text :=
  run r (fun _ s' => Some s') prev s.

(** The scan shared by [re.finditer] and [re.findall]: the matches from
    left to right with the offset where each starts, the search going on
    where the last match ended.  [skip] counts the characters of the last
    match that are still to be passed.  (After an empty match the scan
    moves on by one character: greedy repetition being the only choice in
    a pattern, no other match starts where the empty one was found.) *)
Fixpoint scan (r : regex) (skip off : nat) (prev : option N) (s : text)
  : list (nat * text) :=
  match s with
  | [] =>
      match skip, match_at r prev [] with
      | O, Some _ => [(off, [])]
      | _, _ => []
      end
  | c :: s' =>
      match skip with
      | S n => scan r n (S off) (Some c) s'
      | O =>
          match match_at r prev s with
          | Some rest =>
              let m := take (length s - length rest) s in
              (off, m) :: scan r (pred (length m)) (S off) (Some c) s'
          | None => scan r 0 (S off) (Some c) s'
          end
      end
  end.

Definition finditer (r : regex) (s : text) : list (nat * text) := scan r 0 0 None s.

(** [re.findall(r, s, re.M)] for a pattern without groups. *)
Definition findall (r : regex) (s : text) : list text := map snd (finditer r s).

(** ** The sanitising filter of [get_device_state] *)

Definition server_response_quote : text := codes "server_response" ++ [dquote].

(** What the look-ahead rules out: [\s+.*server_response\Q.*$], where Q
    stands for the double quote. *)
Definition diagnostic_line : regex :=
  Seq (Plus is_space) (Seq (Star is_dot)
    (Seq (Str server_response_quote) (Seq (Star is_dot) Eol))).

(** The pattern of [get_device_state], with Q for the double quote:
    [(?!\s+.*server_response\Q.*$)^\s+\Q\w+.*] *)
Definition status_line : regex :=
  Seq (NotAhead diagnostic_line)
   (Seq Bol (Seq (Plus is_space) (Seq (Str [dquote])
      (Seq (Plus is_word) (Star is_dot))))).

Definition clean_list (body : text) : list text := findall status_line body.

Definition clean_text (body : text) : text :=
  codes "{ " ++ join [newline] (clean_list body) ++ codes " }".

(** *** What a match is

    The matcher is checked against this reading of a pattern:
    [denotes r prev s prev' s'] says that [r] can match from the position
    [(prev, s)] to the position [(prev', s')]. *)

(** The character before the cursor once [m] has been read. *)
Definition last_of (prev : option N) (m : text) : option N :=
  match last m with
  | Some c => Some c
  | None => prev
  end.

Fixpoint denotes (r : regex) (prev : option N) (s : text)
    (prev' : option N) (s' : text) : Prop :=
  match r with
  | Bol => at_bol prev = true /\ prev' = prev /\ s' = s
  | Eol => at_eol s = true /\ prev' = prev /\ s' = s
  | One p => exists c, s = c :: s' /\ p c = true /\ prev' = Some c
  | Str l => s = l ++ s' /\ prev' = last_of prev l
  | Star p => exists m, s = m ++ s' /\ forallb p m = true /\ prev' = last_of prev m
  | Seq a b => exists pm sm, denotes a prev s pm sm /\ denotes b pm sm prev' s'
  | NotAhead a => (forall pe se, ~ denotes a prev s pe se) /\ prev' = prev /\ s' = s
  end.

(** [needle in s] *)
Definition occurs (needle s : text) : Prop :=
  exists a b, s = a ++ needle ++ b.

(** Offset [q] of [s] is where a line starts. *)
Definition line_start (s : text) (q : nat) : Prop :=
  q = 0%nat \/ exists i, q = S i /\ s !! i = Some newline.

(** ** Python values *)

(** [bool(v)] *)
Definition py_bool (v : value) : bool :=
  match v with
  | JNone => false
  | JBool b => b
  | JInt z => negb (z =? 0)%Z
  | JFloat f => float_bool f
  | JStr s => negb (String.eqb s EmptyString)
  | JList l => match l with [] => false | _ :: _ => true end
  | JDict d => negb (Nat.eqb (size d) 0)
  end.

(** The order of [v] against the integer [z]: [None] when Python raises
    [TypeError] for the comparison, [Some None] when [v] is a nan. *)
Definition py_compare (v : value) (z : Z) : option (option comparison) :=
  match v with
  | JBool b => Some (Some (Z.b2z b ?= z)%Z)
  | JInt n => Some (Some (n ?= z)%Z)
  | JFloat f => Some (float_cmp f z)
  | JNone | JStr _ | JList _ | JDict _ => None
  end.

(** [v != z] never raises. *)
Definition py_ne (v : value) (z : Z) : bool :=
  match py_compare v z with
  | Some (Some Eq) => false
  | _ => true
  end.

(** ** The object, the world and the effects of a call *)

Record Fan := {
  _command_api : string;
  _status_api : string;
  _timeout : pytimeout;
  _data : value
}.

(** The fan object, the world outside and the requests sent so far. *)
Record state := { self : Fan; world : World; sent : list (request pytimeout) }.

Inductive exn :=
| ex_ConnectionError         (* airscape.exceptions.ConnectionError *)
| ex_Timeout                 (* airscape.exceptions.Timeout *)
| RequestException           (* passed on from requests *)
| JSONDecodeError
| KeyError (k : string)
| TypeError.

(** A call returns, raises, or is still running when the fuel of its
    loops is used up. *)
Inductive outcome (A : Type) :=
| Returns (a : A) (st : state)
| Raises (e : exn) (st : state)
| Unfinished.
Arguments Returns {A} a st.
Arguments Raises {A} e st.
Arguments Unfinished {A}.

Definition Py (A : Type) : Type := state -> outcome A.

Definition ret {A} (a : A) : Py A := fun st => Returns a st.

Definition bind {A B} (m : Py A) (f : A -> Py B) : Py B :=
  fun st =>
    match m st with
    | Returns a st' => f a st'
    | Raises e st' => Raises e st'
    | Unfinished => Unfinished
    end.

Definition raise {A} (e : exn) : Py A := fun st => Raises e st.

Definition unfinished {A} : Py A := fun _ => Unfinished.

Notation "'let*' x ':=' m 'in' k" := (bind m (fun x => k))
  (at level 10, x name, m at level 100, k at level 200).
Notation "m ';;;' k" := (bind m (fun _ => k))
  (at level 100, k at level 200, right associativity).

(** [requests.get]: the request goes out and the world answers. *)
Definition http_get (rq : request pytimeout) : Py reply :=
  fun st =>
    let (rp, w) := requests_get rq (world st) in
    Returns rp {| self := self st; world := w; sent := sent st ++ [rq] |}.

(** [time.sleep] *)
Definition time_sleep (ms : N) : Py unit :=
  fun st => Returns tt {| self := self st; world := sleep ms (world st); sent := sent st |}.

(** The object after [self._data = d]. *)
Definition with_data (f : Fan) (d : value) : Fan :=
  {| _command_api := _command_api f;
     _status_api := _status_api f;
     _timeout := _timeout f;
     _data := d |}.

(** [self._data = d] *)
Definition assign_data (d : value) : Py unit :=
  fun st =>
    Returns tt {| self := with_data (self st) d; world := world st; sent := sent st |}.

(** [d[k]] for a string [k] *)
Definition subscript (d : value) (k : string) : Py value :=
  match d with
  | JDict m =>
      match m !! k with
      | Some v => ret v
      | None => raise (KeyError k)
      end
  | _ => raise TypeError
  end.

(** [self._data[k]] *)
Definition data_item (k : string) : Py value :=
  fun st => subscript (_data (self st)) k st.

(** [MAX_FAN_SPEED.get(key, 10)]: a list or a dict is unhashable; any
    other key that is no string is not among the model names. *)
Definition table_get (key : value) (dflt : Z) : Py Z :=
  match key with
  | JStr s => ret (default dflt (MAX_FAN_SPEED !! s))
  | JList _ | JDict _ => raise TypeError
  | JNone | JBool _ | JInt _ | JFloat _ => ret dflt
  end.

(** A comparison of [v] with an integer that holds for the orders [ok]. *)
Definition py_order (ok : comparison -> bool) (v : value) (z : Z) : Py bool :=
  match py_compare v z with
  | None => raise TypeError
  | Some None => ret false
  | Some (Some c) => ret (ok c)
  end.

Definition is_Lt (c : comparison) : bool := match c with Lt => true | _ => false end.
Definition is_Gt (c : comparison) : bool := match c with Gt => true | _ => false end.
Definition is_Ge (c : comparison) : bool := match c with Lt => false | _ => true end.

(** ** class Fan *)

(** [requests.get(self._status_api, timeout=self._timeout)] *)
Definition status_request (f : Fan) : request pytimeout :=
  Get (_status_api f) None (_timeout f).

(** [requests.get(self._command_api, params={"dir": cmd}, timeout=self._timeout)] *)
Definition command_request (f : Fan) (cmd : Z) : request pytimeout :=
  Get (_command_api f) (Some cmd) (_timeout f).

(** The [except] clauses of both calls: a connection failure and a read
    timeout are raised again as the module's own exceptions; any other
    exception of [requests] goes through. *)
Definition reraise {A} (e : requests_exception) : Py A :=
  match e with
  | requests_ConnectionError => raise ex_ConnectionError
  | requests_ReadTimeout => raise ex_Timeout
  | requests_RequestException => raise RequestException
  end.

Definition get_device_state : Py value :=
  fun st =>
    (let* api := http_get (status_request (self st)) in
     match api with
     | Failed e => reraise e
     | Response body =>
         match json_loads (clean_text body) with
         | None => raise JSONDecodeError
         | Some d => assign_data d ;;; ret d
         end
     end) st.

Definition set_device_state (cmd : Z) : Py unit :=
  fun st =>
    (let* r := http_get (command_request (self st) cmd) in
     match r with
     | Failed e => reraise e
     | Response _ => get_device_state ;;; ret tt
     end) st.

(** [Fan(host, timeout=DEFAULT_TIMEOUT)]: the object exists once the first
    fetch is back. *)
Definition Fan_init (host : string) (t : option pytimeout) (w : World) : outcome Fan :=
  let fan := {| _command_api := "http://" +:+ host +:+ "/fanspd.cgi";
                _status_api := "http://" +:+ host +:+ "/status.json.cgi";
                _timeout := default DEFAULT_TIMEOUT t;
                _data := JNone |} in
  match get_device_state {| self := fan; world := w; sent := [] |} with
  | Returns _ st => Returns (self st) st
  | Raises e st => Raises e st
  | Unfinished => Unfinished
  end.

(** The [is_on] property. *)
Definition is_on : Py bool :=
  let* v := data_item "fanspd" in ret (py_bool v).

(** [while bool(self._data["doorinprocess"]): sleep(0.25); self.get_device_state()] *)
Fixpoint wait_for_doors (fuel : nat) : Py unit :=
  match fuel with
  | O => unfinished
  | S n =>
      let* d := data_item "doorinprocess" in
      if py_bool d then time_sleep 250 ;;; get_device_state ;;; wait_for_doors n
      else ret tt
  end.

(** The setter of [is_on]. *)
Definition set_is_on (fuel : nat) (state : bool) : Py unit :=
  if state then
    let* v := data_item "fanspd" in
    if negb (py_bool v) then set_device_state 1 ;;; wait_for_doors fuel
    else ret tt
  else set_device_state 4.

(** The [speed] property. *)
Definition speed : Py value := data_item "fanspd".

(** [while self._data["fanspd"] != speed and self._data["fanspd"] != 0:
       self.set_device_state(command); sleep(0.75)] *)
Fixpoint speed_loop (fuel : nat) (command target : Z) : Py unit :=
  match fuel with
  | O => unfinished
  | S n =>
      let* a := data_item "fanspd" in
      if py_ne a target then
        let* b := data_item "fanspd" in
        if py_ne b 0 then
          set_device_state command ;;; time_sleep 750 ;;; speed_loop n command target
        else ret tt
      else ret tt
  end.

(** The setter of [speed]. *)
Definition set_speed (fuel : nat) (target : Z) : Py unit :=
  if (target =? 0)%Z then set_is_on fuel false
  else
    let* on := is_on in
    (if negb on then set_is_on fuel true else ret tt) ;;;
    let* cur := data_item "fanspd" in
    let* down := py_order is_Gt cur target in
    speed_loop fuel (if down then 3 else 1)%Z target.

(** The [max_speed] property. *)
Definition max_speed : Py Z :=
  let* m := data_item "model" in table_get m 10.

Definition speed_up : Py unit :=
  let* v := data_item "fanspd" in
  let* low := py_order is_Ge v 1 in
  if low then
    let* m := data_item "model" in
    let* top := table_get m 10 in
    let* below := py_order is_Lt v top in
    if below then set_device_state 1 else ret tt
  else ret tt.

Definition slow_down : Py unit :=
  let* v := data_item "fanspd" in
  let* above := py_order is_Gt v 1 in
  if above then set_device_state 3 else ret tt.

Definition add_time : Py unit := set_device_state 2.

(** The command codes among the requests of a log. *)
Definition commands (log : list (request pytimeout)) : list Z :=
  omap params log.

(** The requests of [k] rounds of one command and the refresh after it. *)
Definition rounds (f : Fan) (cmd : Z) (k : nat) : list (request pytimeout) :=
  concat (replicate k [command_request f cmd; status_request f]).

(** The state a call ends in, returning or raising. *)
Definition final {A} (o : outcome A) : option state :=
  match o with
  | Returns _ st => Some st
  | Raises _ st => Some st
  | Unfinished => None
  end.

End Airscape.

Arguments Returns {P A} a st.
Arguments Raises {P A} e st.
Arguments Unfinished {P A}.

(** ** A fan to run the model on

    The theorems below hold on every platform.  The examples run on this
    one: a simulated fan, no floats, no characters beyond ASCII, and a
    decoder for the flat objects that the simulated fan sends (string
    keys; integers and strings without escapes as values). *)

Inductive token :=
| TOpen | TClose | TColon | TComma
| TString (s : string)
| TInt (z : Z).

Inductive lexing :=
| Ready
| InString (acc : list Ascii.ascii)   (* the characters read, last first *)
| InInt (neg : bool) (n : N).

Definition is_digit (c : N) : bool := (48 <=? c) && (c <=? 57).

Definition int_token (neg : bool) (n : N) : token :=
  TInt (if neg then - Z.of_N n else Z.of_N n)%Z.

(** Reading [c] between two tokens. *)
Definition ready_step (c : N) : option (lexing * list token) :=
  if (c =? 32) || (c =? 9) || (c =? 10) || (c =? 13) then Some (Ready, [])
  else if c =? 123 then Some (Ready, [TOpen])
  else if c =? 125 then Some (Ready, [TClose])
  else if c =? 58 then Some (Ready, [TColon])
  else if c =? 44 then Some (Ready, [TComma])
  else if c =? dquote then Some (InString [], [])
  else if c =? 45 then Some (InInt true 0, [])
  else if is_digit c then Some (InInt false (c - 48), [])
  else None.

Fixpoint lex (st : lexing) (s : text) : option (list token) :=
  match s with
  | [] =>
      match st with
      | Ready => Some []
      | InInt neg n => Some [int_token neg n]
      | InString _ => None
      end
  | c :: s' =>
      match st with
      | InString acc =>
          if c =? dquote
          then cons (TString (String.string_of_list_ascii (rev acc))) <$> lex Ready s'
          else lex (InString (Ascii.ascii_of_N c :: acc)) s'
      | InInt neg n =>
          if is_digit c then lex (InInt neg (10 * n + (c - 48))) s'
          else
            match ready_step c with
            | Some (st', ts) => (fun r => int_token neg n :: ts ++ r) <$> lex st' s'
            | None => None
            end
      | Ready =>
          match ready_step c with
          | Some (st', ts) => app ts <$> lex st' s'
          | None => None
          end
      end
  end.

Definition scalar (t : token) : option (json Empty_set) :=
  match t with
  | TString s => Some (JStr s)
  | TInt z => Some (JInt z)
  | _ => None
  end.

(** The members of an object; a key given twice keeps its last value. *)
Fixpoint members (d : gmap string (json Empty_set)) (ts : list token)
  : option (json Empty_set) :=
  match ts with
  | TString k :: TColon :: v :: sep :: rest =>
      match scalar v, sep with
      | Some x, TComma => members (<[k:=x]> d) rest
      | Some x, TClose =>
          match rest with
          | [] => Some (JDict (<[k:=x]> d))
          | _ :: _ => None
          end
      | _, _ => None
      end
  | _ => None
  end.

Definition flat_json_loads (s : text) : option (json Empty_set) :=
  match lex Ready s with
  | Some [TOpen; TClose] => Some (JDict ∅)
  | Some (TOpen :: ts) => members ∅ ts
  | _ => None
  end.

(** The simulated fan: its speed, whether it can be reached, and whether
    its firmware sends a broken speed line. *)
Record sim := { sim_fanspd : Z; sim_online : bool; sim_broken : bool }.

(** A line [  Qkey Q: value] of the status body (Q: the double quote). *)
Definition member_line (key : string) (v : text) : text :=
  codes "  " ++ dquote :: codes key ++ dquote :: codes ": " ++ v.

(** What [status.json.cgi] sends: the diagnostic line carries a control
    character and a stray quote. *)
Definition sim_status (w : sim) : text :=
  codes "{" ++ newline ::
  (if sim_broken w then codes "  " ++ quoted "fanspd" ++ codes " " ++ codes (pretty (sim_fanspd w))
   else member_line "fanspd" (codes (pretty (sim_fanspd w)))) ++ codes "," ++ newline ::
  member_line "doorinprocess" (codes "0") ++ codes "," ++ newline ::
  member_line "server_response" (dquote :: codes "Err" ++ 0 :: dquote :: codes "or<br/>" ++ [dquote])
    ++ codes "," ++ newline ::
  member_line "model" (quoted "2.5eWHF") ++ newline ::
  codes "}".

(** What [fanspd.cgi?dir=cmd] does to the fan. *)
Definition sim_command (cmd : Z) (w : sim) : sim :=
  {| sim_fanspd :=
       (if cmd =? 1 then sim_fanspd w + 1
        else if cmd =? 3 then Z.max 0 (sim_fanspd w - 1)
        else if cmd =? 4 then 0
        else sim_fanspd w)%Z;
     sim_online := sim_online w;
     sim_broken := sim_broken w |}.

Definition sim_get (rq : request Z) (w : sim) : reply * sim :=
  if sim_online w then
    match params rq with
    | Some cmd => (Response (codes "<fanspd/>"), sim_command cmd w)
    | None => (Response (sim_status w), w)
    end
  else (Failed requests_ConnectionError, w).

Definition sim_platform : Platform := {|
  pyfloat := Empty_set;
  float_bool := fun _ => false;
  float_cmp := fun _ _ => None;
  unicode_isspace := fun _ => false;
  unicode_isalnum := fun _ => false;
  json_loads := flat_json_loads;
  MAX_FAN_SPEED := {[ "2.5eWHF" := 5%Z ]};
  pytimeout := Z;
  DEFAULT_TIMEOUT := 5%Z;
  World := sim;
  requests_get := sim_get;
  sleep := fun _ w => w
|}.

(** The simulated fan at speed [n]. *)
Definition sim_at (n : Z) (online broken : bool) : sim :=
  {| sim_fanspd := n; sim_online := online; sim_broken := broken |}.

(** What its status decodes to. *)
Definition sim_snapshot (n : Z) : gmap string (json Empty_set) :=
  {[ "fanspd" := JInt n; "doorinprocess" := JInt 0; "model" := JStr "2.5eWHF" ]}.

(** A fan object with the cache [d]. *)
Definition sim_fan (d : gmap string (json Empty_set)) : Fan :=
  @Build_Fan sim_platform "http://fan/fanspd.cgi" "http://fan/status.json.cgi"
    5%Z (JDict d).

(** The object with the cached speed [cached], in front of the simulated
    fan [w], nothing sent yet. *)
Definition sim_state (cached : Z) (w : sim) : state :=
  @Build_state sim_platform (sim_fan (sim_snapshot cached)) w [].

(** A cache with a model that the table does not have. *)
Definition unknown_model : gmap string (json Empty_set) :=
  {[ "fanspd" := JInt 3; "model" := JStr "9.9xWHF" ]}.

Definition sim_state_unknown_model : state :=
  @Build_state sim_platform (sim_fan unknown_model) (sim_at 3 true false) [].

(** The simulated fan reports [n], one of the speeds from 5 down to 2. *)
Definition sim_reports (n : Z) (w : sim) : Prop :=
  w = sim_at n true false /\ (n = 2 \/ n = 3 \/ n = 4 \/ n = 5)%Z.

(** A body written with an apostrophe for each double quote and a bar for
    each line break. *)
Definition sketch (s : string) : text :=
  map (fun c => if c =? 39 then dquote else if c =? 124 then newline else c)
    (codes s).

(** A status body whose key line starts at column zero, after an empty
    line. *)
Definition blank_then_key : text :=
  newline :: quoted "fanspd" ++ codes ": 1".

(** A line with no colon. *)
Definition no_colon : text := codes "  " ++ dquote :: codes "fanspd".

(** ** What the methods keep

    The vocabulary of the properties beyond the refresh and the guards. *)

Section Vocabulary.
Context {P : Platform}.

(** What the [except] clauses raise for a failure of [requests.get]. *)
Definition module_error (e : requests_exception) : exn :=
  match e with
  | requests_ConnectionError => ex_ConnectionError
  | requests_ReadTimeout => ex_Timeout
  | requests_RequestException => RequestException
  end.

(** The two URLs and the timeout of an object. *)
Definition same_endpoints (f f' : Fan) : Prop :=
  _command_api f' = _command_api f /\
  _status_api f' = _status_api f /\
  _timeout f' = _timeout f.

(** Every request of [log] is the status request of [f] or a command
    request of [f] with a code among [codes_allowed]. *)
Definition only_codes (codes_allowed : list Z) (f : Fan)
    (log : list (request pytimeout)) : Prop :=
  Forall (fun rq =>
            rq = status_request f \/
            exists c, c ∈ codes_allowed /\ rq = command_request f c) log.

(** From [st] to [st']: the endpoints are kept, the log has grown, and
    what was added are requests of the object with the codes allowed. *)
Definition sends (codes_allowed : list Z) (st st' : state) : Prop :=
  same_endpoints (self st) (self st') /\
  exists log, sent st' = sent st ++ log /\
              only_codes codes_allowed (self st) log.

(** A call that, however it ends, has done no more than [sends] allows. *)
Definition keeps {A} (codes_allowed : list Z) (m : Py A) : Prop :=
  forall st st', final (m st) = Some st' -> sends codes_allowed st st'.

(** The command that the speed setter settles on before its loop, and the
    change of speed that one such command asks for. *)
Definition step_code (cached target : Z) : Z :=
  if (target <? cached)%Z then 3%Z else 1%Z.

Definition step_delta (cached target : Z) : Z :=
  if (target <? cached)%Z then (-1)%Z else 1%Z.

End Vocabulary.

(** ** A second simulated fan

    Its doors take [rig_door] sleeps to open, it can ignore commands, and
    its network follows a script: the head of [rig_faults] says whether
    the next request fails. *)

Record rig := {
  rig_fanspd : Z;
  rig_door : nat;
  rig_frozen : bool;
  rig_faults : list (option requests_exception)
}.

Definition rig_status (w : rig) : text :=
  codes "{" ++ newline ::
  member_line "fanspd" (codes (pretty (rig_fanspd w))) ++ codes "," ++ newline ::
  member_line "doorinprocess"
    (codes (match rig_door w with O => "0" | S _ => "1" end)) ++ codes "," ++ newline ::
  member_line "server_response" (quoted "OK<br/>") ++ codes "," ++ newline ::
  member_line "model" (quoted "2.5eWHF") ++ newline ::
  codes "}".

Definition rig_command (cmd : Z) (w : rig) : rig :=
  if rig_frozen w then w
  else
    {| rig_fanspd :=
         (if cmd =? 1 then rig_fanspd w + 1
          else if cmd =? 3 then Z.max 0 (rig_fanspd w - 1)
          else if cmd =? 4 then 0
          else rig_fanspd w)%Z;
       rig_door := rig_door w;
       rig_frozen := rig_frozen w;
       rig_faults := rig_faults w |}.

Definition rig_answer (rq : request Z) (w : rig) : reply * rig :=
  match params rq with
  | Some cmd => (Response (codes "<fanspd/>"), rig_command cmd w)
  | None => (Response (rig_status w), w)
  end.

Definition rig_next (w : rig) : rig :=
  {| rig_fanspd := rig_fanspd w; rig_door := rig_door w;
     rig_frozen := rig_frozen w; rig_faults := tail (rig_faults w) |}.

Definition rig_get (rq : request Z) (w : rig) : reply * rig :=
  match rig_faults w with
  | Some e :: _ => (Failed e, rig_next w)
  | _ => rig_answer rq (rig_next w)
  end.

Definition rig_sleep (ms : N) (w : rig) : rig :=
  {| rig_fanspd := rig_fanspd w;
     rig_door := if rig_frozen w then rig_door w else pred (rig_door w);
     rig_frozen := rig_frozen w; rig_faults := rig_faults w |}.

Definition rig_platform : Platform := {|
  pyfloat := Empty_set;
  float_bool := fun _ => false;
  float_cmp := fun _ _ => None;
  unicode_isspace := fun _ => false;
  unicode_isalnum := fun _ => false;
  json_loads := flat_json_loads;
  MAX_FAN_SPEED := {[ "2.5eWHF" := 5%Z ]};
  pytimeout := Z;
  DEFAULT_TIMEOUT := 5%Z;
  World := rig;
  requests_get := rig_get;
  sleep := rig_sleep
|}.

Definition rig_at (n : Z) (door : nat) (frozen : bool)
    (faults : list (option requests_exception)) : rig :=
  {| rig_fanspd := n; rig_door := door; rig_frozen := frozen; rig_faults := faults |}.

Definition rig_snapshot (n door : Z) : gmap string (json Empty_set) :=
  {[ "fanspd" := JInt n; "doorinprocess" := JInt door; "model" := JStr "2.5eWHF" ]}.

Definition rig_fan (d : json Empty_set) : Fan :=
  @Build_Fan rig_platform "http://fan/fanspd.cgi" "http://fan/status.json.cgi" 5%Z d.

Definition rig_state (d : json Empty_set) (w : rig) : state :=
  @Build_state rig_platform (rig_fan d) w [].

(** What the simulated fans report on the way between two speeds. *)
Definition sim_between (lo hi : Z) (n : Z) (w : sim) : Prop :=
  w = sim_at n true false /\ (lo <= n <= hi)%Z.

Definition rig_doors (j : nat) (w : rig) : Prop := w = rig_at 1 j false [].

Definition rig_is (w0 w : rig) : Prop := w = w0.

(** A body on one line, and an indented body. *)
Definition compact_body : text := sketch "{'fanspd':1}".

Definition two_lines : text := sketch "{|  'fanspd': 5,|}".

(** A fan object on the first simulated fan with any cache. *)
Definition sim_state_with (d : json Empty_set) (w : sim) : state :=
  @Build_state sim_platform
    (@Build_Fan sim_platform "http://fan/fanspd.cgi" "http://fan/status.json.cgi"
       5%Z d) w [].

(** * Properties *)

Section Regex_facts.
Context {P : Platform}.

Lemma last_of_cons prev c m : last_of prev (c :: m) = last_of (Some c) m.
Proof.
  unfold last_of. destruct m as [|d m]; [done|].
  change (last (c :: d :: m)) with (last (d :: m)).
  destruct (last (d :: m)) eqn:E; [done|]. by apply last_None in E.
Qed.

Lemma last_of_app prev a b : last_of prev (a ++ b) = last_of (last_of prev a) b.
Proof.
  revert prev. induction a as [|c a IH]; intros prev; [done|].
  simpl. by rewrite !last_of_cons, IH.
Qed.

(** What [run_str] finds is the literal. *)
Lemma run_str_sound l k prev s x :
  run_str l k prev s = Some x ->
  exists s', s = l ++ s' /\ k (last_of prev l) s' = Some x.
Proof.
  revert prev s. induction l as [|c l IH]; intros prev s H; simpl in H.
  - by exists s.
  - destruct s as [|d s]; [done|].
    destruct (N.eqb_spec c d) as [->|]; [|done].
    destruct (IH _ _ H) as (s' & -> & Hk).
    exists s'. by rewrite last_of_cons.
Qed.

Lemma run_str_complete l k prev s' :
  run_str l k prev (l ++ s') = k (last_of prev l) s'.
Proof.
  revert prev. induction l as [|c l IH]; intros prev; simpl; [done|].
  by rewrite N.eqb_refl, IH, last_of_cons.
Qed.

(** What [run_star] finds is a run of the class. *)
Lemma run_star_sound p k prev s x :
  run_star p k prev s = Some x ->
  exists m s', s = m ++ s' /\ forallb p m = true /\ k (last_of prev m) s' = Some x.
Proof.
  revert prev. induction s as [|c s IH]; intros prev H; simpl in H.
  - by exists [], [].
  - destruct (p c) eqn:Hc; [|by exists [], (c :: s)].
    destruct (run_star p k (Some c) s) as [r|] eqn:Hr.
    + injection H as ->.
      destruct (IH _ Hr) as (m & s' & -> & Hm & Hk).
      exists (c :: m), s'. simpl. by rewrite Hc, last_of_cons.
    + by exists [], (c :: s).
Qed.

(** Every run of the class is tried. *)
Lemma run_star_complete p k prev m s' :
  forallb p m = true ->
  is_Some (k (last_of prev m) s') ->
  is_Some (run_star p k prev (m ++ s')).
Proof.
  revert prev. induction m as [|c m IH]; intros prev Hm Hk.
  - simpl. destruct s' as [|c s']; simpl; [done|].
    destruct (p c); [|done]. by destruct (run_star p k (Some c) s').
  - simpl in Hm. apply andb_prop in Hm as [Hc Hm]. simpl. rewrite Hc.
    rewrite last_of_cons in Hk.
    destruct (IH (Some c) Hm Hk) as [r ->]. by eexists.
Qed.

(** The matcher finds a match exactly where the pattern has one. *)
Lemma run_correct r :
  (forall k prev s x, run r k prev s = Some x ->
     exists prev' s', denotes r prev s prev' s' /\ k prev' s' = Some x) /\
  (forall k prev s prev' s', denotes r prev s prev' s' ->
     is_Some (k prev' s') -> is_Some (run r k prev s)).
Proof.
  induction r as [| |p|l|p|a [IHa1 IHa2] b [IHb1 IHb2]|a [IHa1 IHa2]]; split; simpl.
  - intros k prev s x H. destruct (at_bol prev) eqn:E; [|done]. by exists prev, s.
  - intros k prev s prev' s' (E & -> & ->) Hk. by rewrite E.
  - intros k prev s x H. destruct (at_eol s) eqn:E; [|done]. by exists prev, s.
  - intros k prev s prev' s' (E & -> & ->) Hk. by rewrite E.
  - intros k prev s x H. destruct s as [|c s]; [done|].
    destruct (p c) eqn:E; [|done]. exists (Some c), s. eauto.
  - intros k prev s prev' s' (c & -> & E & ->) Hk. by rewrite E.
  - intros k prev s x H. destruct (run_str_sound _ _ _ _ _ H) as (s' & -> & Hk).
    by exists (last_of prev l), s'.
  - intros k prev s prev' s' (-> & ->) Hk. by rewrite run_str_complete.
  - intros k prev s x H.
    destruct (run_star_sound _ _ _ _ _ H) as (m & s' & -> & Hm & Hk).
    exists (last_of prev m), s'. eauto.
  - intros k prev s prev' s' (m & -> & Hm & ->) Hk. by apply run_star_complete.
  - intros k prev s x H.
    destruct (IHa1 _ _ _ _ H) as (pm & sm & Ha & Hb).
    destruct (IHb1 _ _ _ _ Hb) as (pe & se & Hb' & Hk).
    exists pe, se. eauto.
  - intros k prev s prev' s' (pm & sm & Ha & Hb) Hk. eauto.
  - intros k prev s x H.
    destruct (run a (fun _ s' => Some s') prev s) as [r|] eqn:E; [done|].
    exists prev, s. split; [|done]. split; [|done].
    intros pe se Hd.
    destruct (IHa2 (fun _ s' => Some s') _ _ _ _ Hd) as [y Hy]; [by eexists|].
    congruence.
  - intros k prev s prev' s' (Hno & -> & ->) Hk.
    destruct (run a (fun _ s' => Some s') prev s) as [r|] eqn:E; [|done].
    destruct (IHa1 _ _ _ _ E) as (pe & se & Hd & _). by destruct (Hno pe se).
Qed.

(** A match reads a prefix of the text. *)
Lemma denotes_prefix r prev s prev' s' :
  denotes r prev s prev' s' -> exists m, s = m ++ s' /\ prev' = last_of prev m.
Proof.
  revert prev s prev' s'.
  induction r as [| |p|l|p|a IHa b IHb|a IHa]; simpl; intros prev s prev' s'.
  - intros (_ & -> & ->). by exists [].
  - intros (_ & -> & ->). by exists [].
  - intros (c & -> & _ & ->). by exists [c].
  - intros (-> & ->). by exists l.
  - intros (m & -> & _ & ->). by exists m.
  - intros (pm & sm & Ha & Hb).
    destruct (IHa _ _ _ _ Ha) as (m1 & -> & ->).
    destruct (IHb _ _ _ _ Hb) as (m2 & -> & ->).
    exists (m1 ++ m2). by rewrite last_of_app, (assoc_L (++)).
  - intros (_ & -> & ->). by exists [].
Qed.

(** The greedy [.*] at the end of a pattern reads to the end of the line. *)
Lemma run_star_dot_last prev s rest :
  run_star is_dot (fun _ s' => Some s') prev s = Some rest ->
  at_eol rest = true /\ exists m, s = m ++ rest /\ forallb is_dot m = true.
Proof.
  revert prev. induction s as [|c s IH]; intros prev H; simpl in H.
  - injection H as <-. split; [done|]. by exists [].
  - destruct (is_dot c) eqn:Hc.
    + destruct (run_star is_dot _ (Some c) s) as [r|] eqn:Hr.
      * injection H as ->. destruct (IH _ Hr) as (He & m & -> & Hm).
        split; [done|]. exists (c :: m). simpl. by rewrite Hc.
      * injection H as <-. destruct s as [|d s]; simpl in Hr; [done|].
        destruct (is_dot d); [|done].
        by destruct (run_star is_dot _ (Some d) s).
    + injection H as <-. split; [|by exists []].
      unfold is_dot in Hc. simpl. by destruct (c =? newline).
Qed.

Lemma is_word_dot c : is_word c = true -> is_dot c = true.
Proof.
  unfold is_dot. destruct (N.eqb_spec c newline) as [->|]; [|done].
  by vm_compute.
Qed.

Lemma forallb_word_dot m : forallb is_word m = true -> forallb is_dot m = true.
Proof.
  induction m as [|c m IH]; simpl; [done|].
  intros [Hc Hm]%andb_prop. by rewrite (is_word_dot _ Hc), IH.
Qed.

(** The shape of a match of [status_line]. *)
Lemma status_line_match prev s rest :
  match_at status_line prev s = Some rest ->
  (forall pe se, ~ denotes diagnostic_line prev s pe se) /\
  at_bol prev = true /\
  exists ws c tail,
    s = ws ++ dquote :: c :: tail ++ rest /\
    ws <> [] /\ forallb is_space ws = true /\
    is_word c = true /\ forallb is_dot tail = true /\
    at_eol rest = true.
Proof.
  unfold match_at, status_line. intros H.
  change (run (NotAhead diagnostic_line)
            (run Bol (run (Plus is_space) (run (Str [dquote])
               (run (Plus is_word) (run_star is_dot (fun _ s' => Some s'))))))
            prev s = Some rest) in H.
  apply (proj1 (run_correct _)) in H as (p1 & s1 & (Hno & -> & ->) & H).
  apply (proj1 (run_correct _)) in H as (p2 & s2 & (Hbol & -> & ->) & H).
  apply (proj1 (run_correct _)) in H
    as (p3 & s3 & (p' & s' & (c0 & -> & Hc0 & ->) & (ws & -> & Hws & ->)) & H).
  apply (proj1 (run_correct _)) in H as (p4 & s4 & (-> & ->) & H).
  apply (proj1 (run_correct _)) in H
    as (p5 & s5 & (p' & s' & (c & -> & Hc & ->) & (wd & -> & Hwd & ->)) & H).
  apply run_star_dot_last in H as (Heol & m & -> & Hm).
  split_and!; [done..|].
  exists (c0 :: ws), c, (wd ++ m).
  split_and!; try done.
  - simpl. by rewrite <-!(assoc_L (++)).
  - simpl. by rewrite Hc0.
  - by rewrite forallb_app, (forallb_word_dot _ Hwd), Hm.
Qed.

(** A line with the marker after leading whitespace is a diagnostic line. *)
Lemma diagnostic_line_denotes prev c0 ws x b rest :
  is_space c0 = true -> forallb is_space ws = true ->
  forallb is_dot x = true -> forallb is_dot b = true ->
  at_eol rest = true ->
  exists pe,
    denotes diagnostic_line prev
      (c0 :: ws ++ x ++ server_response_quote ++ b ++ rest) pe rest.
Proof.
  intros Hc0 Hws Hx Hb Heol. eexists. unfold diagnostic_line, Plus. simpl.
  eexists _, _. split.
  { eexists _, _. split; [by exists c0|]. by exists ws. }
  eexists _, _. split; [by exists x|].
  eexists _, _. split; [done|].
  eexists _, _. split; [by exists b|]. done.
Qed.

Lemma forallb_app_inv {A} (p : A -> bool) (l k : list A) :
  forallb p (l ++ k) = true -> forallb p l = true /\ forallb p k = true.
Proof. rewrite forallb_app. apply andb_prop. Qed.

(** A match of [status_line] does not contain the marker. *)
Lemma status_line_no_marker prev m rest :
  match_at status_line prev (m ++ rest) = Some rest ->
  ~ occurs server_response_quote m.
Proof.
  intros H (a & b & Hm).
  apply status_line_match in H
    as (Hno & _ & ws & c & tail & Hs & Hne & Hws & Hc & Htail & Heol).
  assert (m = ws ++ dquote :: c :: tail) as Hm'.
  { apply (app_inv_tail rest). rewrite Hs. by rewrite <-(assoc_L (++)). }
  assert (forallb is_dot (dquote :: c :: tail) = true) as Hline.
  { simpl. by rewrite (is_word_dot _ Hc), Htail. }
  assert (exists x, dquote :: c :: tail = x ++ server_response_quote ++ b)
    as (x & Hx).
  { rewrite Hm' in Hm. apply app_eq_inv in Hm as [(l & Hl1 & Hl2)|(l & Hl1 & Hl2)].
    - destruct l as [|d l].
      + exists []. by rewrite Hl2.
      + exfalso. injection Hl2 as <- _. rewrite Hl1 in Hws.
        apply forallb_app_inv in Hws as [_ Hd]. by simpl in Hd.
    - by exists l. }
  rewrite Hx in Hline.
  apply forallb_app_inv in Hline as [Hx' Hb'].
  apply forallb_app_inv in Hb' as [_ Hb'].
  destruct ws as [|c0 ws]; [done|]. simpl in Hws.
  apply andb_prop in Hws as [Hc0 Hws].
  destruct (diagnostic_line_denotes prev c0 ws x b rest) as [pe Hd]; [done..|].
  apply (Hno pe rest).
  rewrite Hs. simpl.
  change (dquote :: c :: tail ++ rest) with ((dquote :: c :: tail) ++ rest).
  by rewrite Hx, <-!(assoc_L (++)).
Qed.

(** Where the matches of a scan come from. *)
Lemma scan_elem_of r s : forall skip off prev p m,
  (p, m) ∈ scan r skip off prev s ->
  exists pre s2 rest,
    s = pre ++ s2 /\ p = (off + length pre)%nat /\
    match_at r (last_of prev pre) s2 = Some rest /\
    m = take (length s2 - length rest) s2.
Proof.
  induction s as [|c s IH]; intros skip off prev p m Hin.
  - simpl in Hin. destruct skip; [|by apply elem_of_nil in Hin].
    destruct (match_at r prev []) as [rest|] eqn:E; [|by apply elem_of_nil in Hin].
    apply list_elem_of_singleton in Hin. injection Hin as -> ->.
    exists [], [], rest. split_and!; [done|simpl; lia|done|by rewrite take_nil].
  - simpl in Hin.
    assert (forall n, (p, m) ∈ scan r n (S off) (Some c) s ->
      exists pre s2 rest,
        c :: s = pre ++ s2 /\ p = (off + length pre)%nat /\
        match_at r (last_of prev pre) s2 = Some rest /\
        m = take (length s2 - length rest) s2) as Hrec.
    { intros n Hn. destruct (IH _ _ _ _ _ Hn) as (pre & s2 & rest & -> & -> & Hm & ->).
      exists (c :: pre), s2, rest. rewrite last_of_cons.
      split_and!; [done|simpl; lia|done..]. }
    destruct skip as [|n]; [|by eapply Hrec].
    destruct (match_at r prev (c :: s)) as [rest|] eqn:E; [|by eapply Hrec].
    apply elem_of_cons in Hin as [Hin|Hin]; [|by eapply Hrec].
    injection Hin as -> ->.
    exists [], (c :: s), rest. split_and!; [done|simpl; lia|done..].
Qed.

(** What [finditer] keeps of a status body: each match starts a line with
    white space, then a double quote and a word character, and runs to the
    end of that line. *)
Lemma finditer_status_line body p m :
  (p, m) ∈ finditer status_line body ->
  exists pre rest ws c tail,
    body = pre ++ m ++ rest /\ length pre = p /\
    at_bol (last_of None pre) = true /\
    match_at status_line (last_of None pre) (m ++ rest) = Some rest /\
    m = ws ++ dquote :: c :: tail /\
    ws <> [] /\ forallb is_space ws = true /\
    is_word c = true /\ forallb is_dot tail = true /\
    at_eol rest = true.
Proof.
  intros Hin. apply scan_elem_of in Hin as (pre & s2 & rest & -> & -> & Hm & ->).
  pose proof Hm as Hm'.
  apply status_line_match in Hm'
    as (_ & Hbol & ws & c & tail & Hs & Hne & Hws & Hc & Htail & Heol).
  assert (s2 = (ws ++ dquote :: c :: tail) ++ rest) as ->.
  { rewrite Hs. by rewrite <-(assoc_L (++)). }
  rewrite length_app, Nat.add_sub, take_app_length.
  exists pre, rest, ws, c, tail. split_and!; done.
Qed.

(** An occurrence in two texts joined by a character that the needle does
    not have lies in one of them. *)
Lemma occurs_app_cons (n x z : text) c :
  c ∉ n -> occurs n (x ++ c :: z) -> occurs n x \/ occurs n z.
Proof.
  intros Hc (a & b & H).
  apply app_eq_inv in H as [(l & Hl1 & Hl2)|(l & Hl1 & Hl2)].
  - symmetry in Hl2. apply app_eq_inv in Hl2 as [(l2 & H1 & H2)|(l2 & H1 & H2)].
    + left. exists a, l2. by rewrite Hl1, H1.
    + destruct l2 as [|d l2].
      * left. exists a, []. rewrite Hl1, H1. by rewrite !app_nil_r.
      * injection H2 as <- _. destruct Hc. rewrite H1.
        apply elem_of_app. right. by apply elem_of_cons; left.
  - destruct l as [|d l].
    + simpl in Hl2. destruct n as [|d n].
      * right. by exists [], z.
      * injection Hl2 as -> _. destruct Hc. by apply elem_of_cons; left.
    + injection Hl2 as <- ->. right. by exists l, b.
Qed.

Lemma occurs_length (n s : text) : occurs n s -> (length n <= length s)%nat.
Proof. intros (a & b & ->). rewrite !length_app. lia. Qed.

Lemma occurs_join (n : text) (parts : list text) :
  n <> [] -> newline ∉ n -> occurs n (join [newline] parts) ->
  exists m, m ∈ parts /\ occurs n m.
Proof.
  intros Hne Hnl. induction parts as [|x parts IH]; simpl.
  - intros H%occurs_length. destruct n; [done|simpl in H; lia].
  - destruct parts as [|y parts].
    + intros H. exists x. split; [by apply elem_of_cons; left|done].
    + intros H. apply (occurs_app_cons n x _ newline Hnl) in H as [H|H].
      * exists x. split; [by apply elem_of_cons; left|done].
      * destruct (IH H) as (m & Hm & Ho). exists m.
        split; [by apply elem_of_cons; right|done].
Qed.

Lemma forallb_lookup {A} (p : A -> bool) (l : list A) i x :
  forallb p l = true -> l !! i = Some x -> p x = true.
Proof.
  revert i. induction l as [|y l IH]; intros i; [done|].
  simpl. intros [Hy Hl]%andb_prop. destruct i as [|i]; simpl.
  - by intros [= <-].
  - by apply IH.
Qed.

Lemma at_bol_line_start pre (s : text) :
  at_bol (last_of None pre) = true -> line_start (pre ++ s) (length pre).
Proof.
  unfold last_of, line_start. destruct (last pre) as [c|] eqn:E.
  - simpl. intros ->%N.eqb_eq. right. exists (pred (length pre)).
    assert (pre <> []) by (by intros ->).
    assert (length pre <> 0%nat) by (by destruct pre).
    split; [lia|]. rewrite lookup_app_l by lia. by rewrite <-last_lookup.
  - apply last_None in E as ->. by left.
Qed.

Lemma marker_no_space : 32 ∉ server_response_quote.
Proof. by apply (bool_decide_unpack _). Qed.

Lemma marker_no_newline : newline ∉ server_response_quote.
Proof. by apply (bool_decide_unpack _). Qed.

End Regex_facts.

Section Sanitizing.
Context {P : Platform}.

(** C1.  Whatever the status body is, every match that the filter keeps
    is made of whole lines of the body (it starts where a line starts and
    ends where a line ends) and does not hold the key of the diagnostic
    field, [server_response] with its closing quote.  So the text handed
    to [json.loads] holds that key nowhere: every line with the field is
    left out, whatever else is on the line. *)
Theorem server_response_never_parsed (body : text) :
  (forall p m, (p, m) ∈ finditer status_line body ->
     (exists pre rest,
        body = pre ++ m ++ rest /\ length pre = p /\
        line_start body p /\ at_eol rest = true) /\
     ~ occurs server_response_quote m) /\
  ~ occurs server_response_quote (clean_text body) /\
  ~ occurs (quoted "server_response") (clean_text body).
Proof.
  assert (forall p m, (p, m) ∈ finditer status_line body ->
     ~ occurs server_response_quote m) as Hkept.
  { intros p m Hin.
    apply finditer_status_line in Hin as (pre & rest & ? & ? & ? & _ & _ & _ & Hm & _).
    by apply status_line_no_marker in Hm. }
  assert (~ occurs server_response_quote (clean_text body)) as Hclean.
  { unfold clean_text.
    change (codes "{ ") with ([123] ++ [32]).
    change (codes " }") with (32 :: [125]).
    rewrite <-(assoc_L (++)). simpl. intros H.
    apply (occurs_app_cons _ [123] _ 32 marker_no_space) in H as [H|H].
    { apply occurs_length in H. simpl in H. lia. }
    apply (occurs_app_cons _ _ _ 32 marker_no_space) in H as [H|H].
    - apply occurs_join in H as (m & Hm & Ho); [|done|apply marker_no_newline].
      unfold clean_list, findall in Hm.
      apply list_elem_of_fmap in Hm as ([p m'] & -> & Hin).
      by apply (Hkept p m').
    - apply occurs_length in H. simpl in H. lia. }
  split_and!; [|done|].
  - intros p m Hin. split; [|by apply (Hkept p)].
    apply finditer_status_line in Hin
      as (pre & rest & ? & ? & ? & Hbody & Hp & Hbol & _ & _ & _ & _ & _ & _ & Heol).
    exists pre, rest. split_and!; try done.
    rewrite Hbody, <-Hp. by apply at_bol_line_start.
  - intros (a & b & H). apply Hclean. exists (a ++ [dquote]), b.
    rewrite H. unfold quoted, server_response_quote. simpl.
    by rewrite <-!(assoc_L (++)).
Qed.

(** C10, as the code has it.  Every match that the filter keeps starts
    where a line starts, with one or more white-space characters, then a
    double quote and a word character, and runs to the end of that line.
    The white space may hold line breaks: a line that starts at column
    zero with another character is inside a kept match only when the
    match starts on an earlier line and all that lies between is white
    space.  No colon is needed on a kept line. *)
Theorem kept_match_shape (body : text) (p : nat) (m : text) :
  (p, m) ∈ finditer status_line body ->
  (exists pre rest ws c tail,
     body = pre ++ m ++ rest /\ length pre = p /\ line_start body p /\
     m = ws ++ dquote :: c :: tail /\
     ws <> [] /\ forallb is_space ws = true /\
     is_word c = true /\ forallb is_dot tail = true /\ at_eol rest = true) /\
  (forall q d,
     line_start body q -> body !! q = Some d -> is_space d = false ->
     (p <= q < p + length m)%nat ->
     (p < q)%nat /\
     forall i, (p <= i < q)%nat -> exists e, body !! i = Some e /\ is_space e = true) /\
  clean_list no_colon = [no_colon].
Proof.
  intros Hin.
  apply finditer_status_line in Hin
    as (pre & rest & ws & c & tail & Hbody & Hp & Hbol & _ & Hm & Hne & Hws & Hc & Htail & Heol).
  split_and!.
  - exists pre, rest, ws, c, tail. split_and!; try done.
    rewrite Hbody, <-Hp. by apply at_bol_line_start.
  - intros q d Hq Hd Hnsp Hrange.
    assert (length ws <> 0%nat) as Hlen by (by destruct ws).
    assert (forallb is_dot (dquote :: c :: tail) = true) as Hline.
    { simpl. by rewrite (is_word_dot _ Hc), Htail. }
    rewrite Hm, length_app in Hrange.
    rewrite Hbody, Hm in Hd.
    rewrite lookup_app_r, lookup_app_l in Hd by (rewrite ?length_app; lia).
    destruct (decide (q - length pre < length ws)%nat) as [Hlt|Hge].
    { rewrite lookup_app_l in Hd by done.
      rewrite (forallb_lookup _ _ _ _ Hws Hd) in Hnsp. done. }
    destruct (decide (q - length pre = length ws)%nat) as [Heq|Hgt].
    + split; [lia|]. intros i Hi.
      destruct (lookup_lt_is_Some_2 ws (i - length pre)) as [e He]; [lia|].
      exists e. split; [|by eapply forallb_lookup].
      rewrite Hbody, Hm.
      rewrite lookup_app_r, lookup_app_l, lookup_app_l
        by (rewrite ?length_app; lia).
      done.
    + exfalso. destruct Hq as [->|(i & -> & Hi)]; [lia|].
      rewrite Hbody, Hm in Hi.
      rewrite lookup_app_r, lookup_app_l, lookup_app_r in Hi
        by (rewrite ?length_app; simpl in *; lia).
      by pose proof (forallb_lookup _ _ _ _ Hline Hi).
  - by vm_compute.
Qed.

End Sanitizing.

Section Fan_facts.
Context {P : Platform}.

Lemma commands_snoc_status log (f : Fan) :
  commands (log ++ [status_request f]) = commands log.
Proof. unfold commands. rewrite omap_app. simpl. by rewrite app_nil_r. Qed.

Lemma commands_snoc_command log (f : Fan) cmd :
  commands (log ++ [command_request f cmd]) = commands log ++ [cmd].
Proof. unfold commands. by rewrite omap_app. Qed.

(** A refresh sends the status request and nothing else; it ends, and the
    object is the old one unless the cache was replaced. *)
Lemma get_device_state_final st :
  exists st',
    final (get_device_state st) = Some st' /\
    sent st' = sent st ++ [status_request (self st)] /\
    (self st' = self st \/ exists d, self st' = with_data (self st) d).
Proof.
  unfold get_device_state, bind, http_get.
  destruct (requests_get _ (world st)) as [[body|e] w]; simpl.
  - destruct (json_loads (clean_text body)) as [d|]; simpl.
    + eexists. split_and!; [done..|]. right. by exists d.
    + eexists. split_and!; [done..|]. by left.
  - destruct e; simpl; eexists; (split_and!; [done..|by left]).
Qed.

(** A command sends its code, once, and no other code. *)
Lemma set_device_state_final cmd st :
  exists st',
    final (set_device_state cmd st) = Some st' /\
    commands (sent st') = commands (sent st) ++ [cmd].
Proof.
  unfold set_device_state, bind, http_get.
  destruct (requests_get _ (world st)) as [[body|e] w]; simpl.
  - match goal with |- context [get_device_state ?s] =>
      destruct (get_device_state_final s) as (st' & Hf & Hs & _);
      destruct (get_device_state s) as [d st1|e st1|]; simpl in *; [| |done]
    end; injection Hf as ->; exists st'; (split; [done|]);
      rewrite Hs; simpl; by rewrite commands_snoc_status, commands_snoc_command.
  - destruct e; simpl; eexists; (split; [done|]); simpl;
      by rewrite commands_snoc_command.
Qed.

(** A command that the fan answers, followed by a refresh that parses. *)
Lemma set_device_state_ok cmd st body0 w1 body d w2 :
  requests_get (command_request (self st) cmd) (world st) = (Response body0, w1) ->
  requests_get (status_request (self st)) w1 = (Response body, w2) ->
  json_loads (clean_text body) = Some d ->
  set_device_state cmd st =
    Returns tt {| self := with_data (self st) d; world := w2;
                  sent := (sent st ++ [command_request (self st) cmd])
                            ++ [status_request (self st)] |}.
Proof.
  intros H1 H2 H3. unfold set_device_state, bind, http_get. rewrite H1. simpl.
  unfold get_device_state, bind, http_get. simpl. rewrite H2. simpl.
  by rewrite H3.
Qed.

Lemma data_item_state k st v st' :
  data_item k st = Returns v st' -> st' = st.
Proof.
  unfold data_item, subscript.
  destruct (_data (self st)) as [| | | | | |m]; try done.
  destruct (m !! k); [|done]. by intros [= _ <-].
Qed.

Lemma table_get_state key dflt st top st' :
  table_get key dflt st = Returns top st' -> st' = st.
Proof. destruct key; simpl; try done; by intros [= _ <-]. Qed.

Lemma max_speed_inv st top :
  max_speed st = Returns top st ->
  exists mv, data_item "model" st = Returns mv st /\
             table_get mv 10 st = Returns top st.
Proof.
  unfold max_speed, bind.
  destruct (data_item "model" st) as [mv st1|e st1|] eqn:E; try done.
  apply data_item_state in E as E'. subst st1. intros H. by exists mv.
Qed.

End Fan_facts.

Section Fan_claims.
Context {P : Platform}.

(** C2.  On every state, setting the speed to 0 is the very call that
    switches the power off, and that call sends exactly one command, with
    code 4: no step command (code 1 or 3) goes out. *)
Theorem set_speed_zero_is_power_off (fuel : nat) (st : state) :
  set_speed fuel 0 st = set_is_on fuel false st /\
  exists st',
    final (set_is_on fuel false st) = Some st' /\
    commands (sent st') = commands (sent st) ++ [4%Z].
Proof.
  split; [done|]. apply (set_device_state_final 4).
Qed.

(** C4.  When the guard of [speed_up] passes and the call of the command
    endpoint fails to connect, [speed_up] raises the module's
    [ConnectionError] and the fan object, the cached state with it, is
    what it was before the call. *)
Theorem speed_up_connection_failure (st : state) (n top : Z) (w : World) :
  speed st = Returns (JInt n) st ->
  max_speed st = Returns top st ->
  (1 <= n < top)%Z ->
  requests_get (command_request (self st) 1) (world st)
    = (Failed requests_ConnectionError, w) ->
  exists st',
    speed_up st = Raises ex_ConnectionError st' /\
    self st' = self st /\ _data (self st') = _data (self st).
Proof.
  intros Hn Htop Hrange Hget.
  apply max_speed_inv in Htop as (mv & Hmodel & Htable).
  unfold speed in Hn. unfold speed_up, bind. rewrite Hn. simpl.
  destruct (Z.compare_spec n 1) as [?|?|?]; [|lia|]; simpl;
    rewrite Hmodel, Htable; simpl;
    (destruct (Z.compare_spec n top) as [?|?|?]; [lia| |lia]); simpl;
    unfold set_device_state, bind, http_get; rewrite Hget; simpl;
    by eexists.
Qed.

(** C5.  [max_speed] reads the cached model: for a model string that is a
    key of the table it returns the table's value, for any other model
    string it returns 10; the state after the call, the world and the log
    of requests in it, is the state before. *)
Theorem max_speed_lookup (st : state) (d : gmap string value) (model : string) :
  _data (self st) = JDict d ->
  d !! "model" = Some (JStr model) ->
  (forall top, MAX_FAN_SPEED !! model = Some top -> max_speed st = Returns top st) /\
  (MAX_FAN_SPEED !! model = None -> max_speed st = Returns 10%Z st).
Proof.
  intros Hd Hm.
  assert (max_speed st = Returns (default 10%Z (MAX_FAN_SPEED !! model)) st) as ->.
  { unfold max_speed, bind, data_item. rewrite Hd. simpl. by rewrite Hm. }
  split; [intros top ->|intros ->]; done.
Qed.

(** C6.  With the cached speed an integer [n]: at 0, and at the model's
    maximum, [speed_up] returns without sending anything; for
    [1 <= n < max] it sends exactly one command, with code 1. *)
Theorem speed_up_guard (st : state) (n : Z) :
  speed st = Returns (JInt n) st ->
  (n = 0%Z -> speed_up st = Returns tt st) /\
  (forall top, max_speed st = Returns top st -> n = top ->
     speed_up st = Returns tt st) /\
  (forall top, max_speed st = Returns top st -> (1 <= n < top)%Z ->
     exists st', final (speed_up st) = Some st' /\
                 commands (sent st') = commands (sent st) ++ [1%Z]).
Proof.
  intros Hn. unfold speed in Hn. split_and!.
  - intros ->. unfold speed_up, bind. by rewrite Hn.
  - intros top (mv & Hmodel & Htable)%max_speed_inv ->.
    unfold speed_up, bind. rewrite Hn. simpl.
    destruct (Z.compare_spec top 1) as [?|?|?]; simpl; [|done|];
      rewrite Hmodel, Htable; simpl; by rewrite Z.compare_refl.
  - intros top (mv & Hmodel & Htable)%max_speed_inv Hrange.
    unfold speed_up, bind. rewrite Hn. simpl.
    destruct (Z.compare_spec n 1) as [?|?|?]; [|lia|]; simpl;
      rewrite Hmodel, Htable; simpl;
      (destruct (Z.compare_spec n top) as [?|?|?]; [lia| |lia]); simpl;
      apply set_device_state_final.
Qed.

(** C7.  With the cached speed an integer [n]: for [n <= 1], [slow_down]
    returns without sending anything; for [n > 1] it sends exactly one
    command, with code 3. *)
Theorem slow_down_guard (st : state) (n : Z) :
  speed st = Returns (JInt n) st ->
  ((n <= 1)%Z -> slow_down st = Returns tt st) /\
  ((n > 1)%Z ->
     exists st', final (slow_down st) = Some st' /\
                 commands (sent st') = commands (sent st) ++ [3%Z]).
Proof.
  intros Hn. unfold speed in Hn. split.
  - intros Hle. unfold slow_down, bind. rewrite Hn. simpl.
    by destruct (Z.compare_spec n 1) as [?|?|?]; [| |lia].
  - intros Hgt. unfold slow_down, bind. rewrite Hn. simpl.
    destruct (Z.compare_spec n 1) as [?|?|?]; [lia|lia|]. simpl.
    apply set_device_state_final.
Qed.

(** C8.  Two refreshes that receive the same body, from whatever states,
    give the same snapshot when the sanitised body parses: each returns
    it and leaves it in the cache. *)
Theorem refresh_idempotent (st1 st2 : state) (body : text) (w1 w2 : World) :
  requests_get (status_request (self st1)) (world st1) = (Response body, w1) ->
  requests_get (status_request (self st2)) (world st2) = (Response body, w2) ->
  is_Some (json_loads (clean_text body)) ->
  exists d st1' st2',
    get_device_state st1 = Returns d st1' /\
    get_device_state st2 = Returns d st2' /\
    _data (self st1') = d /\ _data (self st2') = d.
Proof.
  intros H1 H2 [d Hd]. exists d.
  unfold get_device_state, bind, http_get. rewrite H1, H2. simpl.
  rewrite Hd. simpl. by eexists _, _.
Qed.

(** C9.  When the sanitised, brace-wrapped body does not parse,
    [get_device_state] raises the decoder's error and the fan object, the
    cached state with it, is what it was before the call. *)
Theorem refresh_parse_error (st : state) (body : text) (w : World) :
  requests_get (status_request (self st)) (world st) = (Response body, w) ->
  json_loads (clean_text body) = None ->
  exists st',
    get_device_state st = Raises JSONDecodeError st' /\
    self st' = self st /\ _data (self st') = _data (self st).
Proof.
  intros H1 H2. unfold get_device_state, bind, http_get. rewrite H1. simpl.
  rewrite H2. by eexists.
Qed.

(** A fan that reports one speed less after each slow-down command.
    [R n w]: in the world [w] the fan reports the speed [n]. *)
Section Stepping_down.
Variable R : Z -> World -> Prop.
Variable f0 : Fan.
Variable target : Z.

Hypothesis command_steps : forall n w,
  (target < n)%Z -> R n w ->
  exists body w',
    requests_get (command_request f0 3) w = (Response body, w') /\ R (n - 1) w'.

Hypothesis status_reports : forall n w,
  R n w ->
  exists body d w',
    requests_get (status_request f0) w = (Response body, w') /\
    json_loads (clean_text body) = Some (JDict d) /\
    d !! "fanspd" = Some (JInt n) /\ R n w'.

Hypothesis sleep_keeps : forall n w, R n w -> R n (sleep 750 w).

Lemma speed_loop_down (k : nat) : forall fuel st n,
  (0 <= target)%Z -> n = (target + Z.of_nat k)%Z ->
  (k < fuel)%nat ->
  command_request (self st) 3 = command_request f0 3 ->
  status_request (self st) = status_request f0 ->
  speed st = Returns (JInt n) st -> R n (world st) ->
  exists st',
    speed_loop fuel 3 target st = Returns tt st' /\
    sent st' = sent st ++ rounds f0 3 k /\
    speed st' = Returns (JInt target) st'.
Proof.
  induction k as [|k IH]; intros fuel st n Ht Hn Hfuel Hc Hs Hspeed HR;
    (destruct fuel as [|fuel]; [lia|]); unfold speed in Hspeed.
  - assert (n = target) as -> by lia.
    exists st. simpl. unfold bind. rewrite Hspeed. unfold py_ne. simpl.
    rewrite Z.compare_refl. unfold rounds. simpl. by rewrite app_nil_r.
  - simpl speed_loop. unfold bind at 1. rewrite Hspeed.
    assert (py_ne (JInt n) target = true) as ->.
    { unfold py_ne. simpl. by destruct (Z.compare_spec n target); [lia|..]. }
    unfold bind at 1. rewrite Hspeed.
    assert (py_ne (JInt n) 0 = true) as ->.
    { unfold py_ne. simpl. by destruct (Z.compare_spec n 0); [lia|..]. }
    destruct (command_steps n (world st)) as (body0 & w1 & Hcmd & HR1); [lia|done|].
    destruct (status_reports _ _ HR1) as (body & d & w2 & Hst & Hjson & Hd & HR2).
    rewrite <-Hc in Hcmd. rewrite <-Hs in Hst.
    unfold bind at 1.
    rewrite (set_device_state_ok _ _ _ _ _ _ _ Hcmd Hst Hjson).
    unfold bind at 1. unfold time_sleep at 1. cbv beta iota.
    match goal with |- context [speed_loop fuel 3 target ?s] =>
      destruct (IH fuel s (n - 1)%Z) as (st' & Hloop & Hsent & Hfinal)
    end; [done|lia|lia|done|done| |by apply sleep_keeps|].
    { unfold speed, data_item. simpl. by rewrite Hd. }
    exists st'. split; [done|]. split; [|done].
    rewrite Hsent. simpl. rewrite Hc, Hs. unfold rounds. simpl.
    by rewrite <-!(assoc_L (++)).
Qed.

End Stepping_down.

(** C3.  The cache says speed 5 and the fan reports one speed less after
    each slow-down command it gets: setting the speed to 2 returns, after
    exactly three rounds of one command with code 3 and the refresh that
    follows it, with 2 as the cached speed. *)
Theorem set_speed_five_to_two (R : Z -> World -> Prop) (st : state) (fuel : nat) :
  (forall n w, (2 < n)%Z -> R n w ->
     exists body w',
       requests_get (command_request (self st) 3) w = (Response body, w') /\
       R (n - 1)%Z w') ->
  (forall n w, R n w ->
     exists body d w',
       requests_get (status_request (self st)) w = (Response body, w') /\
       json_loads (clean_text body) = Some (JDict d) /\
       d !! "fanspd" = Some (JInt n) /\ R n w') ->
  (forall n w, R n w -> R n (sleep 750 w)) ->
  speed st = Returns (JInt 5) st ->
  R 5%Z (world st) ->
  (3 < fuel)%nat ->
  exists st',
    set_speed fuel 2 st = Returns tt st' /\
    sent st' = sent st ++
      [command_request (self st) 3; status_request (self st);
       command_request (self st) 3; status_request (self st);
       command_request (self st) 3; status_request (self st)] /\
    commands (sent st') = commands (sent st) ++ [3; 3; 3]%Z /\
    speed st' = Returns (JInt 2) st'.
Proof.
  intros Hcmd Hstatus Hsleep Hspeed HR Hfuel.
  destruct (speed_loop_down R (self st) 2 Hcmd Hstatus Hsleep 3 fuel st 5)
    as (st' & Hloop & Hsent & Hfinal); [done..|].
  exists st'. unfold speed in Hspeed.
  split_and!; [|done| |done].
  - unfold set_speed. simpl. unfold bind, is_on, bind. rewrite Hspeed. simpl.
    rewrite Hspeed. simpl. done.
  - rewrite Hsent. unfold commands. by rewrite omap_app.
Qed.

End Fan_claims.

(** * The theorems at work on the simulated fan *)

Section Simulated.
#[local] Existing Instance sim_platform.

(** The filter on some bodies, as Python's [re] answers on them. *)
Example finditer_status :
  finditer status_line
    (sketch "{|  'fanspd': 5,|  'server_response': 'x'y',|  'model': '2.5eWHF'|}")
  = [(2%nat, sketch "  'fanspd': 5,"); (45%nat, sketch "  'model': '2.5eWHF'")].
Proof. vm_compute. reflexivity. Qed.

Example finditer_blank_lines :
  finditer status_line (sketch "  |   'k': 1||  'server_response': 3|  'z': 2")
  = [(0%nat, sketch "  |   'k': 1"); (37%nat, sketch "  'z': 2")].
Proof. vm_compute. reflexivity. Qed.

Example finditer_value_names_field :
  finditer status_line (sketch " |  'x': 'server_response' ") = [].
Proof. vm_compute. reflexivity. Qed.

Example finditer_longer_key :
  finditer status_line (sketch "  'server_response_time': 5")
  = [(0%nat, sketch "  'server_response_time': 5")].
Proof. vm_compute. reflexivity. Qed.

Example finditer_column_zero_first :
  finditer status_line (sketch "'a': 1|  'b': 2") = [(7%nat, sketch "  'b': 2")].
Proof. vm_compute. reflexivity. Qed.

Example finditer_no_word :
  finditer status_line (sketch "  '!': 1|  'ok': 2") = [(9%nat, sketch "  'ok': 2")].
Proof. vm_compute. reflexivity. Qed.

(** The diagnostic line of the simulated fan, with its control character
    and its stray quote, is dropped and the rest parses. *)
Example refresh_drops_diagnostic_line :
  json_loads (clean_text (sim_status (sim_at 5 true false)))
  = Some (JDict (sim_snapshot 5)).
Proof. vm_compute. reflexivity. Qed.

(** The constructor fetches the first snapshot. *)
Example fan_init_fetches :
  Fan_init "fan" None (sim_at 2 true false)
  = Returns (sim_fan (sim_snapshot 2))
      (Build_state (sim_fan (sim_snapshot 2)) (sim_at 2 true false)
         [status_request (sim_fan (sim_snapshot 2))]).
Proof. reflexivity. Qed.

(** Switching on from off: command 1, one refresh, and the doors are
    found open. *)
Example power_on_from_off :
  set_is_on 1 true (sim_state 0 (sim_at 0 true false))
  = Returns tt
      (Build_state (sim_fan (sim_snapshot 1)) (sim_at 1 true false)
         [command_request (sim_fan (sim_snapshot 0)) 1;
          status_request (sim_fan (sim_snapshot 0))]).
Proof. reflexivity. Qed.

(** Out of fuel, a loop that has not ended is reported as such. *)
Example set_speed_needs_fuel :
  set_speed 3 2 (sim_state 5 (sim_at 5 true false)) = Unfinished.
Proof. reflexivity. Qed.

Lemma max_speed_lookup_witness :
  max_speed (sim_state 5 (sim_at 5 true false))
    = Returns 5%Z (sim_state 5 (sim_at 5 true false)) /\
  max_speed sim_state_unknown_model = Returns 10%Z sim_state_unknown_model.
Proof.
  split.
  - apply (proj1 (max_speed_lookup (sim_state 5 (sim_at 5 true false))
                    (sim_snapshot 5) "2.5eWHF" eq_refl eq_refl)).
    reflexivity.
  - apply (proj2 (max_speed_lookup sim_state_unknown_model
                    unknown_model "9.9xWHF" eq_refl eq_refl)).
    reflexivity.
Defined.

Lemma set_speed_five_to_two_witness :
  exists st',
    set_speed 4 2 (sim_state 5 (sim_at 5 true false)) = Returns tt st' /\
    commands (sent st') = [3; 3; 3]%Z /\
    speed st' = Returns (JInt 2) st'.
Proof.
  destruct (set_speed_five_to_two (P := sim_platform) sim_reports
              (sim_state 5 (sim_at 5 true false)) 4)
    as (st' & Hrun & _ & Hcmds & Hspeed).
  - intros n w Hn [-> Hcases].
    destruct Hcases as [-> | [-> | [-> | ->]]]; [lia|..];
      eexists _, _; (split; [reflexivity|]); (split; [reflexivity|lia]).
  - intros n w [-> Hcases]. exists (sim_status (sim_at n true false)).
    exists (sim_snapshot n), (sim_at n true false).
    destruct Hcases as [-> | [-> | [-> | ->]]];
      (split; [reflexivity|]); (split; [vm_compute; reflexivity|]);
      (split; [vm_compute; reflexivity|]); (split; [reflexivity|lia]).
  - intros n w H. exact H.
  - reflexivity.
  - split; [reflexivity|lia].
  - lia.
  - exists st'. split; [exact Hrun|]. split; [exact Hcmds|exact Hspeed].
Defined.

Lemma speed_up_connection_failure_witness :
  exists st',
    speed_up (sim_state 3 (sim_at 3 false false)) = Raises ex_ConnectionError st' /\
    self st' = self (sim_state 3 (sim_at 3 false false)) /\
    _data (self st') = JDict (sim_snapshot 3).
Proof.
  apply (speed_up_connection_failure (sim_state 3 (sim_at 3 false false))
           3 5 (sim_at 3 false false)).
  - reflexivity.
  - reflexivity.
  - lia.
  - reflexivity.
Defined.

Lemma speed_up_guard_witness :
  speed_up (sim_state 0 (sim_at 0 true false))
    = Returns tt (sim_state 0 (sim_at 0 true false)) /\
  speed_up (sim_state 5 (sim_at 5 true false))
    = Returns tt (sim_state 5 (sim_at 5 true false)) /\
  exists st',
    final (speed_up (sim_state 3 (sim_at 3 true false))) = Some st' /\
    commands (sent st') = [1%Z].
Proof.
  split; [|split].
  - apply (proj1 (speed_up_guard (sim_state 0 (sim_at 0 true false)) 0 eq_refl)).
    reflexivity.
  - apply (proj1 (proj2 (speed_up_guard (sim_state 5 (sim_at 5 true false)) 5 eq_refl))
             5%Z); reflexivity.
  - apply (proj2 (proj2 (speed_up_guard (sim_state 3 (sim_at 3 true false)) 3 eq_refl))
             5%Z); [reflexivity|lia].
Defined.

Lemma slow_down_guard_witness :
  slow_down (sim_state 1 (sim_at 1 true false))
    = Returns tt (sim_state 1 (sim_at 1 true false)) /\
  exists st',
    final (slow_down (sim_state 3 (sim_at 3 true false))) = Some st' /\
    commands (sent st') = [3%Z].
Proof.
  split.
  - apply (proj1 (slow_down_guard (sim_state 1 (sim_at 1 true false)) 1 eq_refl)).
    lia.
  - apply (proj2 (slow_down_guard (sim_state 3 (sim_at 3 true false)) 3 eq_refl)).
    lia.
Defined.

Lemma refresh_idempotent_witness :
  exists d st1' st2',
    get_device_state (sim_state 0 (sim_at 5 true false)) = Returns d st1' /\
    get_device_state (sim_state 5 (sim_at 5 true false)) = Returns d st2' /\
    _data (self st1') = d /\ _data (self st2') = d.
Proof.
  apply (refresh_idempotent (sim_state 0 (sim_at 5 true false))
           (sim_state 5 (sim_at 5 true false))
           (sim_status (sim_at 5 true false))
           (sim_at 5 true false) (sim_at 5 true false)).
  - reflexivity.
  - reflexivity.
  - exists (JDict (sim_snapshot 5)). vm_compute. reflexivity.
Defined.

Lemma refresh_parse_error_witness :
  exists st',
    get_device_state (sim_state 3 (sim_at 4 true true)) = Raises JSONDecodeError st' /\
    self st' = self (sim_state 3 (sim_at 4 true true)) /\
    _data (self st') = JDict (sim_snapshot 3).
Proof.
  apply (refresh_parse_error (sim_state 3 (sim_at 4 true true))
           (sim_status (sim_at 4 true true)) (sim_at 4 true true)).
  - reflexivity.
  - vm_compute. reflexivity.
Defined.

Lemma blank_then_key_found :
  finditer status_line blank_then_key = [(0%nat, blank_then_key)].
Proof. vm_compute. reflexivity. Qed.

Lemma kept_match_shape_witness :
  (0%nat, blank_then_key) ∈ finditer status_line blank_then_key /\
  (0 < 1)%nat /\
  forall i, (0 <= i < 1)%nat ->
    exists e, blank_then_key !! i = Some e /\ is_space e = true.
Proof.
  assert ((0%nat, blank_then_key) ∈ finditer status_line blank_then_key) as Hin.
  { rewrite blank_then_key_found. apply list_elem_of_singleton. reflexivity. }
  split; [exact Hin|].
  apply (proj1 (proj2 (kept_match_shape blank_then_key 0 blank_then_key Hin))
           1%nat dquote).
  - right. exists 0%nat. split; reflexivity.
  - reflexivity.
  - reflexivity.
  - vm_compute. lia.
Defined.

(** Against C10 as it was stated: after an empty line, a key line that
    starts at column zero with its double quote is kept, and its member is
    in the object that is parsed. *)
Lemma column_zero_line_kept :
  finditer status_line blank_then_key = [(0%nat, blank_then_key)] /\
  line_start blank_then_key 1 /\
  blank_then_key !! 1%nat = Some dquote /\
  is_space dquote = false /\
  json_loads (clean_text blank_then_key) = Some (JDict {[ "fanspd" := JInt 1 ]}).
Proof.
  split_and!.
  - apply blank_then_key_found.
  - right. by exists 0%nat.
  - reflexivity.
  - reflexivity.
  - vm_compute. reflexivity.
Qed.

End Simulated.

(** * Further properties of the calls *)

Section Network.
Context {P : Platform}.

Lemma reraise_module_error {A} e st :
  reraise (A := A) e st = Raises (module_error e) st.
Proof. by destruct e. Qed.

(** X1.  A status call that fails at the network raises the module's own
    exception for a connection failure or a read timeout (any other
    exception of [requests] as it is); one request has gone out, nothing
    is parsed and the object is untouched. *)
Theorem get_device_state_failure (st : state) (e : requests_exception) (w : World) :
  requests_get (status_request (self st)) (world st) = (Failed e, w) ->
  get_device_state st =
    Raises (module_error e)
      {| self := self st; world := w;
         sent := sent st ++ [status_request (self st)] |}.
Proof.
  intros H. unfold get_device_state, bind, http_get. rewrite H.
  apply reraise_module_error.
Qed.

(** X2.  A command whose request fails is not followed by a refresh: the
    exception is raised with the command request as the only request
    sent, and the object is untouched. *)
Theorem set_device_state_command_failure (st : state) (cmd : Z)
    (e : requests_exception) (w : World) :
  requests_get (command_request (self st) cmd) (world st) = (Failed e, w) ->
  set_device_state cmd st =
    Raises (module_error e)
      {| self := self st; world := w;
         sent := sent st ++ [command_request (self st) cmd] |}.
Proof.
  intros H. unfold set_device_state, bind, http_get. rewrite H.
  apply reraise_module_error.
Qed.

(** X3.  Once the fan has answered a command, what the call comes to is
    what the refresh after it comes to; the body of the answer is not
    used.  A refresh that fails, at the network or in the decoder, raises
    its error with the cache from before the command; a refresh that
    parses becomes the cache.  Either way both requests have gone out. *)
Theorem set_device_state_after_answer (st : state) (cmd : Z)
    (body0 : text) (w1 : World) :
  requests_get (command_request (self st) cmd) (world st) = (Response body0, w1) ->
  (forall e w2,
     requests_get (status_request (self st)) w1 = (Failed e, w2) ->
     set_device_state cmd st =
       Raises (module_error e)
         {| self := self st; world := w2;
            sent := (sent st ++ [command_request (self st) cmd])
                      ++ [status_request (self st)] |}) /\
  (forall body w2,
     requests_get (status_request (self st)) w1 = (Response body, w2) ->
     json_loads (clean_text body) = None ->
     set_device_state cmd st =
       Raises JSONDecodeError
         {| self := self st; world := w2;
            sent := (sent st ++ [command_request (self st) cmd])
                      ++ [status_request (self st)] |}) /\
  (forall body w2 d,
     requests_get (status_request (self st)) w1 = (Response body, w2) ->
     json_loads (clean_text body) = Some d ->
     set_device_state cmd st =
       Returns tt
         {| self := with_data (self st) d; world := w2;
            sent := (sent st ++ [command_request (self st) cmd])
                      ++ [status_request (self st)] |}).
Proof.
  intros H1. split_and!.
  - intros e w2 H2. unfold set_device_state, bind, http_get. rewrite H1. simpl.
    unfold get_device_state, bind, http_get. simpl. rewrite H2. simpl.
    by rewrite reraise_module_error.
  - intros body w2 H2 H3. unfold set_device_state, bind, http_get. rewrite H1. simpl.
    unfold get_device_state, bind, http_get. simpl. rewrite H2. simpl.
    by rewrite H3.
  - intros body w2 d H2 H3. by eapply set_device_state_ok.
Qed.

(** X4.  The constructor is all or nothing.  It sends one status request,
    to the URL made of the host, with the timeout given or the default.
    When that request fails or its body does not parse, the exception is
    raised and there is no object; otherwise the object has the two URLs
    of the host and the parsed body as its cache. *)
Theorem fan_init_all_or_nothing (host : string) (t : option pytimeout) (w : World) :
  let rq := Get ("http://" +:+ host +:+ "/status.json.cgi") None
              (default DEFAULT_TIMEOUT t) in
  (forall e w', requests_get rq w = (Failed e, w') ->
     exists st, Fan_init host t w = Raises (module_error e) st /\ sent st = [rq]) /\
  (forall body w', requests_get rq w = (Response body, w') ->
     json_loads (clean_text body) = None ->
     exists st, Fan_init host t w = Raises JSONDecodeError st /\ sent st = [rq]) /\
  (forall body w' d, requests_get rq w = (Response body, w') ->
     json_loads (clean_text body) = Some d ->
     exists fan st,
       Fan_init host t w = Returns fan st /\
       self st = fan /\ sent st = [rq] /\ world st = w' /\
       _data fan = d /\
       _command_api fan = "http://" +:+ host +:+ "/fanspd.cgi" /\
       _status_api fan = "http://" +:+ host +:+ "/status.json.cgi" /\
       _timeout fan = default DEFAULT_TIMEOUT t).
Proof.
  intros rq. subst rq. split_and!.
  - intros e w' H. unfold Fan_init, get_device_state, bind, http_get, status_request.
    simpl. rewrite H. simpl. rewrite reraise_module_error. by eexists.
  - intros body w' H Hj.
    unfold Fan_init, get_device_state, bind, http_get, status_request.
    simpl. rewrite H. simpl. rewrite Hj. by eexists.
  - intros body w' d H Hj.
    unfold Fan_init, get_device_state, bind, http_get, status_request.
    simpl. rewrite H. simpl. rewrite Hj. simpl. by eexists _, _.
Qed.

End Network.

Section Footprint.
Context {P : Platform}.

Lemma same_endpoints_requests f f' :
  same_endpoints f f' ->
  status_request f' = status_request f /\
  forall c, command_request f' c = command_request f c.
Proof.
  intros (Hc & Hs & Ht). unfold status_request, command_request.
  rewrite Hc, Hs, Ht. done.
Qed.

Lemma sends_refl allowed st : sends allowed st st.
Proof.
  split; [done|]. exists []. split; [by rewrite app_nil_r|]. constructor.
Qed.

Lemma sends_trans allowed st1 st2 st3 :
  sends allowed st1 st2 -> sends allowed st2 st3 -> sends allowed st1 st3.
Proof.
  intros [He1 (l1 & Hl1 & Ho1)] [He2 (l2 & Hl2 & Ho2)].
  destruct (same_endpoints_requests _ _ He1) as [Hs Hc].
  split.
  - destruct He1 as (? & ? & ?), He2 as (? & ? & ?). split_and!; congruence.
  - exists (l1 ++ l2). split; [by rewrite Hl2, Hl1, (assoc_L (++))|].
    apply Forall_app. split; [done|].
    eapply Forall_impl; [exact Ho2|]. simpl.
    intros rq [->|(c & Hin & ->)]; [by left|right].
    exists c. by rewrite Hc.
Qed.

Lemma sends_weaken allowed allowed' st st' :
  allowed ⊆ allowed' -> sends allowed st st' -> sends allowed' st st'.
Proof.
  intros Hsub [He (l & Hl & Ho)]. split; [done|]. exists l. split; [done|].
  eapply Forall_impl; [exact Ho|]. simpl.
  intros rq [->|(c & Hin & ->)]; [by left|right]. exists c. split; [|done].
  by apply Hsub.
Qed.

Lemma keeps_weaken {A} allowed allowed' (m : Py A) :
  allowed ⊆ allowed' -> keeps allowed m -> keeps allowed' m.
Proof. intros Hsub Hm st st' H. eapply sends_weaken; [done|]. by apply Hm. Qed.

Lemma keeps_ret {A} allowed (a : A) : keeps allowed (ret a).
Proof. intros st st' [= <-]. apply sends_refl. Qed.

Lemma keeps_raise {A} allowed e : keeps allowed (raise (A := A) e).
Proof. intros st st' [= <-]. apply sends_refl. Qed.

Lemma keeps_unfinished {A} allowed : keeps allowed (unfinished (A := A)).
Proof. by intros st st'. Qed.

Lemma keeps_bind {A B} allowed (m : Py A) (f : A -> Py B) :
  keeps allowed m -> (forall a, keeps allowed (f a)) -> keeps allowed (bind m f).
Proof.
  intros Hm Hf st st' H. unfold bind in H.
  destruct (m st) as [a st1|e st1|] eqn:E; [| |done].
  - eapply sends_trans; [apply Hm; by rewrite E|]. by eapply Hf.
  - simpl in H. injection H as <-. apply Hm. by rewrite E.
Qed.

Lemma keeps_data_item allowed k : keeps allowed (data_item k).
Proof.
  intros st st' H. unfold data_item, subscript in H.
  destruct (_data (self st)) as [| | | | | |m];
    try (injection H as <-; apply sends_refl).
  destruct (m !! k); injection H as <-; apply sends_refl.
Qed.

Lemma keeps_table_get allowed key dflt : keeps allowed (table_get key dflt).
Proof.
  destruct key; simpl; first [apply keeps_ret | apply keeps_raise].
Qed.

Lemma keeps_py_order allowed ok v z : keeps allowed (py_order ok v z).
Proof.
  unfold py_order. destruct (py_compare v z) as [[c|]|];
    first [apply keeps_ret | apply keeps_raise].
Qed.

Lemma keeps_time_sleep allowed ms : keeps allowed (time_sleep ms).
Proof.
  intros st st' [= <-]. split; [done|]. exists [].
  split; [by rewrite app_nil_r|constructor].
Qed.

Lemma keeps_get_device_state allowed : keeps allowed get_device_state.
Proof.
  intros st st' H.
  destruct (get_device_state_final st) as (st1 & Hf & Hs & Hself).
  rewrite Hf in H. injection H as <-. split.
  - destruct Hself as [->|[d ->]]; done.
  - exists [status_request (self st)]. split; [done|].
    constructor; [by left|constructor].
Qed.

Lemma keeps_set_device_state allowed cmd :
  cmd ∈ allowed -> keeps allowed (set_device_state cmd).
Proof.
  intros Hin st st' H. unfold set_device_state, bind, http_get in H.
  destruct (requests_get _ (world st)) as [[body|e] w]; simpl in H.
  - match type of H with context [get_device_state ?s] =>
      assert (sends allowed st s) as Hfirst;
      [|assert (sends allowed s st'); [|by eapply sends_trans]]
    end.
    + split; [done|]. exists [command_request (self st) cmd]. split; [done|].
      constructor; [|constructor]. right. by exists cmd.
    + match type of H with context [get_device_state ?s] =>
        pose proof (keeps_get_device_state allowed s) as Hg;
        destruct (get_device_state s) as [d s1|e s1|]; simpl in H; [| |done]
      end; injection H as <-; by apply Hg.
  - rewrite reraise_module_error in H. injection H as <-.
    split; [done|]. exists [command_request (self st) cmd]. split; [done|].
    constructor; [|constructor]. right. by exists cmd.
Qed.

Lemma keeps_wait_for_doors allowed fuel : keeps allowed (wait_for_doors fuel).
Proof.
  induction fuel as [|fuel IH]; simpl; [apply keeps_unfinished|].
  apply keeps_bind; [apply keeps_data_item|]. intros d.
  destruct (py_bool d); [|apply keeps_ret].
  apply keeps_bind; [apply keeps_time_sleep|]. intros _.
  apply keeps_bind; [apply keeps_get_device_state|]. by intros _.
Qed.

Lemma keeps_speed_loop allowed fuel cmd target :
  cmd ∈ allowed -> keeps allowed (speed_loop fuel cmd target).
Proof.
  intros Hin. induction fuel as [|fuel IH]; simpl; [apply keeps_unfinished|].
  apply keeps_bind; [apply keeps_data_item|]. intros a.
  destruct (py_ne a target); [|apply keeps_ret].
  apply keeps_bind; [apply keeps_data_item|]. intros b.
  destruct (py_ne b 0); [|apply keeps_ret].
  apply keeps_bind; [by apply keeps_set_device_state|]. intros _.
  apply keeps_bind; [apply keeps_time_sleep|]. by intros _.
Qed.

Lemma keeps_power_on allowed fuel :
  1%Z ∈ allowed -> keeps allowed (set_is_on fuel true).
Proof.
  intros Hin. unfold set_is_on.
  apply keeps_bind; [apply keeps_data_item|]. intros v.
  destruct (negb (py_bool v)); [|apply keeps_ret].
  apply keeps_bind; [by apply keeps_set_device_state|]. intros _.
  apply keeps_wait_for_doors.
Qed.

(** X5.  However a call ends, by returning or by raising, the two URLs
    and the timeout of the object are what they were, the requests sent
    before are still the head of the log, and each request added is the
    object's status request or its command request with a code of the
    method: 1 for switching on and for [speed_up], 4 for switching off,
    1 or 3 for a speed other than 0, 3 for [slow_down], 2 for [add_time],
    none for a refresh. *)
Theorem methods_footprint :
  (forall fuel, keeps [1%Z] (set_is_on fuel true)) /\
  (forall fuel, keeps [4%Z] (set_is_on fuel false)) /\
  (forall fuel target, target <> 0%Z -> keeps [1%Z; 3%Z] (set_speed fuel target)) /\
  keeps [1%Z] speed_up /\
  keeps [3%Z] slow_down /\
  keeps [2%Z] add_time /\
  keeps [] get_device_state.
Proof.
  assert (1%Z ∈ [1%Z; 3%Z]) as H1 by (apply elem_of_cons; by left).
  assert (3%Z ∈ [1%Z; 3%Z]) as H3
    by (apply elem_of_cons; right; apply elem_of_cons; by left).
  assert (forall z : Z, z ∈ [z]) as Hone by (intros z; apply elem_of_cons; by left).
  split_and!.
  - intros fuel. by apply keeps_power_on.
  - intros fuel. by apply keeps_set_device_state.
  - intros fuel target Hne. unfold set_speed.
    destruct (Z.eqb_spec target 0) as [->|_]; [done|].
    apply keeps_bind.
    { apply keeps_bind; [apply keeps_data_item|]. intros v. apply keeps_ret. }
    intros on. apply keeps_bind.
    { destruct (negb on); [by apply keeps_power_on|apply keeps_ret]. }
    intros _. apply keeps_bind; [apply keeps_data_item|]. intros cur.
    apply keeps_bind; [apply keeps_py_order|]. intros down.
    apply keeps_speed_loop. by destruct down.
  - unfold speed_up.
    apply keeps_bind; [apply keeps_data_item|]. intros v.
    apply keeps_bind; [apply keeps_py_order|]. intros low.
    destruct low; [|apply keeps_ret].
    apply keeps_bind; [apply keeps_data_item|]. intros m.
    apply keeps_bind; [apply keeps_table_get|]. intros top.
    apply keeps_bind; [apply keeps_py_order|]. intros below.
    destruct below; [by apply keeps_set_device_state|apply keeps_ret].
  - unfold slow_down.
    apply keeps_bind; [apply keeps_data_item|]. intros v.
    apply keeps_bind; [apply keeps_py_order|]. intros above.
    destruct above; [by apply keeps_set_device_state|apply keeps_ret].
  - by apply keeps_set_device_state.
  - apply keeps_get_device_state.
Qed.

End Footprint.

Section Speed_setter.
Context {P : Platform}.

(** A fan whose reported speed moves by [delta] with each command [cmd].
    [R n w]: in the world [w] the fan reports the speed [n]. *)
Section Stepping.
Variable R : Z -> World -> Prop.
Variable f0 : Fan.
Variables cmd delta target : Z.

Hypothesis command_steps : forall n w,
  n <> target -> R n w ->
  exists body w',
    requests_get (command_request f0 cmd) w = (Response body, w') /\
    R (n + delta)%Z w'.

Hypothesis status_reports : forall n w,
  R n w ->
  exists body d w',
    requests_get (status_request f0) w = (Response body, w') /\
    json_loads (clean_text body) = Some (JDict d) /\
    d !! "fanspd" = Some (JInt n) /\ R n w'.

Hypothesis sleep_keeps : forall n w, R n w -> R n (sleep 750 w).

Hypothesis one_step : delta = 1%Z \/ delta = (-1)%Z.

Lemma speed_loop_steps (k : nat) : forall fuel st n,
  (0 < n)%Z -> (0 < target)%Z -> target = (n + delta * Z.of_nat k)%Z ->
  (k < fuel)%nat ->
  command_request (self st) cmd = command_request f0 cmd ->
  status_request (self st) = status_request f0 ->
  speed st = Returns (JInt n) st -> R n (world st) ->
  exists st',
    speed_loop fuel cmd target st = Returns tt st' /\
    sent st' = sent st ++ rounds f0 cmd k /\
    speed st' = Returns (JInt target) st'.
Proof.
  induction k as [|k IH]; intros fuel st n Hn Ht Hk Hfuel Hc Hs Hspeed HR;
    (destruct fuel as [|fuel]; [lia|]); unfold speed in Hspeed.
  - assert (n = target) as -> by lia.
    exists st. simpl. unfold bind. rewrite Hspeed. unfold py_ne. simpl.
    rewrite Z.compare_refl. unfold rounds. simpl. by rewrite app_nil_r.
  - assert (n <> target) as Hne by (destruct one_step; lia).
    simpl speed_loop. unfold bind at 1. rewrite Hspeed.
    assert (py_ne (JInt n) target = true) as ->.
    { unfold py_ne. simpl. by destruct (Z.compare_spec n target); [lia|..]. }
    unfold bind at 1. rewrite Hspeed.
    assert (py_ne (JInt n) 0 = true) as ->.
    { unfold py_ne. simpl. by destruct (Z.compare_spec n 0); [lia|..]. }
    destruct (command_steps n (world st)) as (body0 & w1 & Hcmd & HR1); [done..|].
    destruct (status_reports _ _ HR1) as (body & d & w2 & Hst & Hjson & Hd & HR2).
    rewrite <-Hc in Hcmd. rewrite <-Hs in Hst.
    unfold bind at 1.
    rewrite (set_device_state_ok _ _ _ _ _ _ _ Hcmd Hst Hjson).
    unfold bind at 1. unfold time_sleep at 1. cbv beta iota.
    match goal with |- context [speed_loop fuel cmd target ?s] =>
      destruct (IH fuel s (n + delta)%Z) as (st' & Hloop & Hsent & Hfinal)
    end; [destruct one_step; lia|done|lia|lia|done|done| |by apply sleep_keeps|].
    { unfold speed, data_item. simpl. by rewrite Hd. }
    exists st'. split; [done|]. split; [|done].
    rewrite Hsent. simpl. rewrite Hc, Hs. unfold rounds. simpl.
    by rewrite <-!(assoc_L (++)).
Qed.

End Stepping.

(** X6.  Between two speeds above 0, with a fan that reports one speed
    more after each speed-up command and one less after each slow-down
    command: the setter returns after exactly as many rounds, of one
    command and the refresh after it, as the speeds are apart, all with
    the one code chosen before the loop (3 when the target is below the
    cached speed, else 1), and the cached speed is the target.  At the
    target itself nothing is sent. *)
Theorem set_speed_reaches (R : Z -> World -> Prop) (st : state)
    (fuel : nat) (n target : Z) (k : nat) :
  (0 < n)%Z -> (0 < target)%Z ->
  Z.of_nat k = Z.abs (target - n) ->
  (forall m w, m <> target -> R m w ->
     exists body w',
       requests_get (command_request (self st) (step_code n target)) w
         = (Response body, w') /\
       R (m + step_delta n target)%Z w') ->
  (forall m w, R m w ->
     exists body d w',
       requests_get (status_request (self st)) w = (Response body, w') /\
       json_loads (clean_text body) = Some (JDict d) /\
       d !! "fanspd" = Some (JInt m) /\ R m w') ->
  (forall m w, R m w -> R m (sleep 750 w)) ->
  speed st = Returns (JInt n) st ->
  R n (world st) ->
  (k < fuel)%nat ->
  exists st',
    set_speed fuel target st = Returns tt st' /\
    sent st' = sent st ++ rounds (self st) (step_code n target) k /\
    speed st' = Returns (JInt target) st'.
Proof.
  intros Hn Ht Hk Hcmd Hstatus Hsleep Hspeed HR Hfuel.
  assert (step_delta n target = 1%Z \/ step_delta n target = (-1)%Z) as Hd.
  { unfold step_delta. destruct (target <? n)%Z; auto. }
  assert (target = (n + step_delta n target * Z.of_nat k)%Z) as Hdist.
  { unfold step_delta. destruct (Z.ltb_spec target n); lia. }
  destruct (speed_loop_steps R (self st) (step_code n target)
              (step_delta n target) target Hcmd Hstatus Hsleep Hd k fuel st n)
    as (st' & Hloop & Hsent & Hfinal); [done..|].
  exists st'. split; [|done].
  unfold speed in Hspeed. unfold set_speed.
  destruct (Z.eqb_spec target 0) as [?|_]; [lia|].
  unfold bind, is_on, bind. rewrite Hspeed. simpl.
  destruct (Z.eqb_spec n 0) as [?|_]; [lia|]. simpl.
  rewrite Hspeed. simpl. unfold step_code in Hloop.
  by destruct (Z.compare_spec n target), (Z.ltb_spec target n); try lia.
Qed.

Lemma bind_returns {A B} (m : Py A) (f : A -> Py B) st a st1 :
  m st = Returns a st1 -> bind m f st = f a st1.
Proof. intros H. unfold bind. by rewrite H. Qed.

Lemma data_item_lookup st d k v :
  _data (self st) = JDict d -> d !! k = Some v ->
  data_item k st = Returns v st.
Proof. intros Hd Hk. unfold data_item. rewrite Hd. simpl. by rewrite Hk. Qed.

Lemma py_ne_int n z : py_ne (JInt n) z = negb (n =? z)%Z.
Proof.
  unfold py_ne. simpl.
  by destruct (Z.compare_spec n z), (Z.eqb_spec n z); try lia.
Qed.

(** X7.  From off, with a fan that is on at speed 1 after the first
    speed-up command, its doors not in the way, and one speed higher after
    each further one: the setter switches the fan on and steps up, as many
    rounds with code 1 as the target says in all, and the cached speed is
    the target. *)
Theorem set_speed_from_off (R : Z -> World -> Prop) (st : state)
    (fuel : nat) (target : Z) :
  (0 < target)%Z ->
  (forall m w, m <> target -> R m w ->
     exists body w',
       requests_get (command_request (self st) 1) w = (Response body, w') /\
       R (m + 1)%Z w') ->
  (forall m w, R m w ->
     exists body d v w',
       requests_get (status_request (self st)) w = (Response body, w') /\
       json_loads (clean_text body) = Some (JDict d) /\
       d !! "fanspd" = Some (JInt m) /\
       d !! "doorinprocess" = Some v /\ py_bool v = false /\ R m w') ->
  (forall m w, R m w -> R m (sleep 750 w)) ->
  speed st = Returns (JInt 0) st ->
  R 0%Z (world st) ->
  (Z.to_nat target <= fuel)%nat ->
  exists st',
    set_speed fuel target st = Returns tt st' /\
    sent st' = sent st ++ rounds (self st) 1 (Z.to_nat target) /\
    speed st' = Returns (JInt target) st'.
Proof.
  intros Ht Hcmd Hstatus Hsleep Hspeed HR Hfuel. unfold speed in Hspeed.
  destruct (Hcmd 0%Z (world st)) as (body0 & w1 & Hc1 & HR1); [lia|done|].
  destruct (Hstatus _ _ HR1) as (body & d & v & w2 & Hs1 & Hj1 & Hd1 & Hdoor & Hv & HR2).
  pose proof (set_device_state_ok 1 st _ _ _ _ _ Hc1 Hs1 Hj1) as Hset.
  set (st1 := {| self := with_data (self st) (JDict d); world := w2;
                 sent := (sent st ++ [command_request (self st) 1])
                           ++ [status_request (self st)] |}) in *.
  assert (exists k, Z.to_nat target = S k) as [k Hk] by (exists (pred (Z.to_nat target)); lia).
  destruct (speed_loop_steps R (self st) 1 1 target Hcmd) with (k := k)
    (fuel := fuel) (st := st1) (n := 1%Z) as (st' & Hloop & Hsent & Hfinal);
    try done; try lia.
  { intros m w Hm. destruct (Hstatus m w Hm) as (b & d' & ? & w' & ? & ? & ? & _ & _ & ?).
    by exists b, d', w'. }
  { by apply data_item_lookup with d. }
  exists st'. split; [|split; [|done]].
  - unfold set_speed. destruct (Z.eqb_spec target 0) as [?|_]; [lia|].
    rewrite (bind_returns is_on _ st false st)
      by (unfold is_on; by rewrite (bind_returns _ _ _ _ _ Hspeed)).
    simpl negb. cbv iota.
    assert (set_is_on fuel true st = Returns tt st1) as Hon.
    { unfold set_is_on. rewrite (bind_returns _ _ _ _ _ Hspeed). simpl.
      rewrite (bind_returns _ _ _ _ _ Hset).
      destruct fuel as [|fuel]; [lia|]. simpl.
      rewrite (bind_returns _ _ st1 v st1) by (by apply data_item_lookup with d).
      by rewrite Hv. }
    rewrite (bind_returns _ _ _ _ _ Hon).
    rewrite (bind_returns _ _ st1 (JInt 1) st1) by (by apply data_item_lookup with d).
    unfold py_order. simpl.
    rewrite (bind_returns _ _ st1 (is_Gt (1 ?= target)%Z) st1) by done.
    by destruct (Z.compare_spec 1 target); try lia.
  - rewrite Hsent, Hk. subst st1. simpl. unfold rounds. simpl.
    by rewrite <-!(assoc_L (++)).
Qed.

(** X8.  The loop gives way when the fan goes off: if the refresh after
    a step command reports speed 0, the setter returns after that round,
    short of its target. *)
Theorem set_speed_stops_when_off (st : state) (fuel : nat) (n target : Z)
    (body0 body : text) (w1 w2 : World) (d : gmap string value) :
  n <> 0%Z -> target <> 0%Z -> n <> target ->
  speed st = Returns (JInt n) st ->
  requests_get (command_request (self st) (step_code n target)) (world st)
    = (Response body0, w1) ->
  requests_get (status_request (self st)) w1 = (Response body, w2) ->
  json_loads (clean_text body) = Some (JDict d) ->
  d !! "fanspd" = Some (JInt 0) ->
  (2 <= fuel)%nat ->
  set_speed fuel target st =
    Returns tt {| self := with_data (self st) (JDict d);
                  world := sleep 750 w2;
                  sent := sent st ++ rounds (self st) (step_code n target) 1 |}.
Proof.
  intros Hn Ht Hne Hspeed Hc Hs Hj Hd Hfuel. unfold speed in Hspeed.
  destruct fuel as [|[|fuel]]; [lia..|].
  unfold set_speed. destruct (Z.eqb_spec target 0) as [?|_]; [lia|].
  rewrite (bind_returns is_on _ st true st).
  2:{ unfold is_on. rewrite (bind_returns _ _ _ _ _ Hspeed). simpl.
      by destruct (Z.eqb_spec n 0). }
  cbn [negb]. cbv beta iota. rewrite (bind_returns (ret tt) _ st tt st) by done.
  cbv beta. rewrite (bind_returns _ _ _ _ _ Hspeed).
  rewrite (bind_returns _ _ st (is_Gt (n ?= target)%Z) st) by done.
  assert ((if is_Gt (n ?= target)%Z then 3 else 1)%Z = step_code n target) as ->.
  { unfold step_code. by destruct (Z.compare_spec n target), (Z.ltb_spec target n); try lia. }
  simpl speed_loop.
  rewrite (bind_returns _ _ _ _ _ Hspeed), py_ne_int.
  destruct (Z.eqb_spec n target) as [?|_]; [lia|]. cbn [negb]. cbv beta iota.
  rewrite (bind_returns _ _ _ _ _ Hspeed), py_ne_int.
  destruct (Z.eqb_spec n 0) as [?|_]; [lia|]. cbn [negb]. cbv beta iota.
  rewrite (bind_returns _ _ _ _ _ (set_device_state_ok _ st _ _ _ _ _ Hc Hs Hj)).
  cbv beta. unfold bind at 1, time_sleep at 1. cbv beta iota.
  match goal with |- bind _ _ ?s = _ =>
    rewrite (bind_returns _ _ s (JInt 0) s) by (by apply data_item_lookup with d)
  end.
  rewrite py_ne_int. destruct (Z.eqb_spec 0 target) as [?|_]; [lia|].
  cbn [negb]. cbv beta iota.
  match goal with |- bind _ _ ?s = _ =>
    rewrite (bind_returns _ _ s (JInt 0) s) by (by apply data_item_lookup with d)
  end.
  rewrite py_ne_int. simpl. unfold ret, rounds. simpl.
  by rewrite <-!(assoc_L (++)).
Qed.

(** A fan that answers and keeps reporting the speed [n]. *)
Section Stuck.
Variable R : World -> Prop.
Variable f0 : Fan.
Variables cmd n target : Z.

Hypothesis command_answered : forall w,
  R w ->
  exists body w',
    requests_get (command_request f0 cmd) w = (Response body, w') /\ R w'.

Hypothesis status_reports : forall w,
  R w ->
  exists body d w',
    requests_get (status_request f0) w = (Response body, w') /\
    json_loads (clean_text body) = Some (JDict d) /\
    d !! "fanspd" = Some (JInt n) /\ R w'.

Hypothesis sleep_keeps : forall w, R w -> R (sleep 750 w).

Hypothesis not_there : n <> target.
Hypothesis not_off : n <> 0%Z.

Lemma speed_loop_stuck (fuel : nat) : forall st,
  command_request (self st) cmd = command_request f0 cmd ->
  status_request (self st) = status_request f0 ->
  speed st = Returns (JInt n) st -> R (world st) ->
  speed_loop fuel cmd target st = Unfinished.
Proof.
  induction fuel as [|fuel IH]; intros st Hc Hs Hspeed HR; [done|].
  unfold speed in Hspeed. simpl speed_loop.
  rewrite (bind_returns _ _ _ _ _ Hspeed), py_ne_int.
  destruct (Z.eqb_spec n target) as [?|_]; [done|]. cbn [negb]. cbv beta iota.
  rewrite (bind_returns _ _ _ _ _ Hspeed), py_ne_int.
  destruct (Z.eqb_spec n 0) as [?|_]; [done|]. cbn [negb]. cbv beta iota.
  destruct (command_answered _ HR) as (body0 & w1 & Hcmd & HR1).
  destruct (status_reports _ HR1) as (body & d & w2 & Hst & Hjson & Hd & HR2).
  rewrite <-Hc in Hcmd. rewrite <-Hs in Hst.
  rewrite (bind_returns _ _ _ _ _ (set_device_state_ok _ st _ _ _ _ _ Hcmd Hst Hjson)).
  cbv beta. unfold bind at 1, time_sleep at 1. cbv beta iota.
  apply IH; [done|done| |by apply sleep_keeps].
  by apply data_item_lookup with d.
Qed.

End Stuck.

(** X9.  The speed loop has no bound of its own: with a fan that answers
    every request and keeps reporting a speed that is neither the target
    nor 0, the setter has not returned after any number of rounds. *)
Theorem set_speed_never_gives_up (R : World -> Prop) (st : state) (n target : Z) :
  n <> 0%Z -> target <> 0%Z -> n <> target ->
  (forall w, R w ->
     exists body w',
       requests_get (command_request (self st) (step_code n target)) w
         = (Response body, w') /\ R w') ->
  (forall w, R w ->
     exists body d w',
       requests_get (status_request (self st)) w = (Response body, w') /\
       json_loads (clean_text body) = Some (JDict d) /\
       d !! "fanspd" = Some (JInt n) /\ R w') ->
  (forall w, R w -> R (sleep 750 w)) ->
  speed st = Returns (JInt n) st ->
  R (world st) ->
  forall fuel, set_speed fuel target st = Unfinished.
Proof.
  intros Hn Ht Hne Hcmd Hstatus Hsleep Hspeed HR fuel.
  pose proof (speed_loop_stuck R (self st) (step_code n target) n target
                Hcmd Hstatus Hsleep Hne Hn fuel st eq_refl eq_refl Hspeed HR) as Hloop.
  unfold speed in Hspeed. unfold set_speed.
  destruct (Z.eqb_spec target 0) as [?|_]; [done|].
  rewrite (bind_returns is_on _ st true st).
  2:{ unfold is_on. rewrite (bind_returns _ _ _ _ _ Hspeed). simpl.
      by destruct (Z.eqb_spec n 0). }
  cbn [negb]. cbv beta iota. rewrite (bind_returns (ret tt) _ st tt st) by done.
  cbv beta. rewrite (bind_returns _ _ _ _ _ Hspeed).
  rewrite (bind_returns _ _ st (is_Gt (n ?= target)%Z) st) by done.
  assert ((if is_Gt (n ?= target)%Z then 3 else 1)%Z = step_code n target) as ->; [|done].
  unfold step_code. by destruct (Z.compare_spec n target), (Z.ltb_spec target n); try lia.
Qed.

End Speed_setter.

Section Power.
Context {P : Platform}.

(** A fan whose doors are open after some more sleeps.  [D j w]: in the
    world [w] the doors need [j] more sleeps. *)
Section Doors.
Variable D : nat -> World -> Prop.
Variable f0 : Fan.

Hypothesis status_reports : forall j w,
  D j w ->
  exists body d v w',
    requests_get (status_request f0) w = (Response body, w') /\
    json_loads (clean_text body) = Some (JDict d) /\
    d !! "doorinprocess" = Some v /\
    py_bool v = negb (Nat.eqb j 0) /\ D j w'.

Hypothesis sleep_opens : forall j w, D (S j) w -> D j (sleep 250 w).

Lemma wait_for_doors_polls (j : nat) : forall fuel st d v,
  (j < fuel)%nat ->
  status_request (self st) = status_request f0 ->
  _data (self st) = JDict d ->
  d !! "doorinprocess" = Some v -> py_bool v = negb (Nat.eqb j 0) ->
  D j (world st) ->
  exists st' d' v',
    wait_for_doors fuel st = Returns tt st' /\
    sent st' = sent st ++ replicate j (status_request f0) /\
    _data (self st') = JDict d' /\
    d' !! "doorinprocess" = Some v' /\ py_bool v' = false.
Proof.
  induction j as [|j IH]; intros fuel st d v Hfuel Hs Hd Hv Hb HD;
    (destruct fuel as [|fuel]; [lia|]); simpl wait_for_doors;
    rewrite (bind_returns _ _ st v st) by (by apply data_item_lookup with d);
    rewrite Hb; cbn [Nat.eqb negb]; cbv beta iota.
  - exists st, d, v. split_and!; try done. simpl. by rewrite app_nil_r.
  - unfold bind at 1, time_sleep at 1. cbv beta iota.
    destruct (status_reports j (sleep 250 (world st)))
      as (body & d1 & v1 & w1 & Hget & Hjson & Hv1 & Hb1 & HD1);
      [by apply sleep_opens|].
    rewrite <-Hs in Hget.
    match goal with |- context [bind get_device_state _ ?s] =>
      assert (get_device_state s =
                Returns (JDict d1)
                  {| self := with_data (self st) (JDict d1); world := w1;
                     sent := sent st ++ [status_request (self st)] |}) as Hg
    end.
    { unfold get_device_state, bind, http_get. simpl. rewrite Hget. simpl.
      by rewrite Hjson. }
    rewrite (bind_returns _ _ _ _ _ Hg). cbv beta.
    match goal with |- context [wait_for_doors fuel ?s] =>
      destruct (IH fuel s d1 v1) as (st' & d' & v' & Hw & Hsent & Hd' & Hv' & Hb')
    end; [lia|done|done|done|done|done|].
    exists st', d', v'. split_and!; try done.
    rewrite Hsent. simpl. rewrite Hs. by rewrite <-(assoc_L (++)).
Qed.

End Doors.

(** X10.  Switching on from off sends the speed-up command, and after
    the refresh that follows it sleeps and refreshes again for as long as
    the cache says that the doors are moving: with doors that need [k]
    more sleeps there are exactly [k] more status requests, and the call
    returns with the doors reported open. *)
Theorem power_on_waits_for_doors (D : nat -> World -> Prop) (st : state)
    (fuel k : nat) (v0 : value) (body0 : text) (w1 : World) :
  speed st = Returns v0 st -> py_bool v0 = false ->
  requests_get (command_request (self st) 1) (world st) = (Response body0, w1) ->
  D k w1 ->
  (forall j w, D j w ->
     exists body d v w',
       requests_get (status_request (self st)) w = (Response body, w') /\
       json_loads (clean_text body) = Some (JDict d) /\
       d !! "doorinprocess" = Some v /\
       py_bool v = negb (Nat.eqb j 0) /\ D j w') ->
  (forall j w, D (S j) w -> D j (sleep 250 w)) ->
  (k < fuel)%nat ->
  exists st' d' v',
    set_is_on fuel true st = Returns tt st' /\
    sent st' = sent st ++
      [command_request (self st) 1; status_request (self st)]
      ++ replicate k (status_request (self st)) /\
    _data (self st') = JDict d' /\
    d' !! "doorinprocess" = Some v' /\ py_bool v' = false.
Proof.
  intros Hspeed Hoff Hcmd HD Hstatus Hsleep Hfuel. unfold speed in Hspeed.
  destruct (Hstatus _ _ HD) as (body & d & v & w2 & Hget & Hjson & Hv & Hb & HD2).
  pose proof (set_device_state_ok 1 st _ _ _ _ _ Hcmd Hget Hjson) as Hset.
  match type of Hset with _ = Returns tt ?s =>
    destruct (wait_for_doors_polls D (self st) Hstatus Hsleep k fuel s d v)
      as (st' & d' & v' & Hw & Hsent & Hd' & Hv' & Hb')
  end; [done..|].
  exists st', d', v'. split_and!; try done.
  - unfold set_is_on. rewrite (bind_returns _ _ _ _ _ Hspeed). cbv beta.
    rewrite Hoff. cbn [negb]. cbv beta iota.
    by rewrite (bind_returns _ _ _ _ _ Hset).
  - rewrite Hsent. simpl. by rewrite <-!(assoc_L (++)).
Qed.

(** A fan that keeps reporting its doors in process. *)
Section Doors_stuck.
Variable R : World -> Prop.
Variable f0 : Fan.

Hypothesis status_reports : forall w,
  R w ->
  exists body d v w',
    requests_get (status_request f0) w = (Response body, w') /\
    json_loads (clean_text body) = Some (JDict d) /\
    d !! "doorinprocess" = Some v /\ py_bool v = true /\ R w'.

Hypothesis sleep_keeps : forall w, R w -> R (sleep 250 w).

Lemma wait_for_doors_stuck (fuel : nat) : forall st d v,
  status_request (self st) = status_request f0 ->
  _data (self st) = JDict d ->
  d !! "doorinprocess" = Some v -> py_bool v = true ->
  R (world st) ->
  wait_for_doors fuel st = Unfinished.
Proof.
  induction fuel as [|fuel IH]; intros st d v Hs Hd Hv Hb HR; [done|].
  simpl wait_for_doors.
  rewrite (bind_returns _ _ st v st) by (by apply data_item_lookup with d).
  rewrite Hb. cbv beta iota.
  unfold bind at 1, time_sleep at 1. cbv beta iota.
  destruct (status_reports (sleep 250 (world st)))
    as (body & d1 & v1 & w1 & Hget & Hjson & Hv1 & Hb1 & HR1);
    [by apply sleep_keeps|].
  rewrite <-Hs in Hget.
  match goal with |- context [bind get_device_state _ ?s] =>
    assert (get_device_state s =
              Returns (JDict d1)
                {| self := with_data (self st) (JDict d1); world := w1;
                   sent := sent st ++ [status_request (self st)] |}) as Hg
  end.
  { unfold get_device_state, bind, http_get. simpl. rewrite Hget. simpl.
    by rewrite Hjson. }
  rewrite (bind_returns _ _ _ _ _ Hg). cbv beta.
  by apply IH with d1 v1.
Qed.

End Doors_stuck.

(** X11.  The door loop has no bound of its own either: with a fan that
    answers and keeps reporting its doors in process, switching on has
    not returned after any number of polls. *)
Theorem power_on_never_gives_up (R : World -> Prop) (st : state)
    (v0 : value) (body0 : text) (w1 : World) :
  speed st = Returns v0 st -> py_bool v0 = false ->
  requests_get (command_request (self st) 1) (world st) = (Response body0, w1) ->
  R w1 ->
  (forall w, R w ->
     exists body d v w',
       requests_get (status_request (self st)) w = (Response body, w') /\
       json_loads (clean_text body) = Some (JDict d) /\
       d !! "doorinprocess" = Some v /\ py_bool v = true /\ R w') ->
  (forall w, R w -> R (sleep 250 w)) ->
  forall fuel, set_is_on fuel true st = Unfinished.
Proof.
  intros Hspeed Hoff Hcmd HR Hstatus Hsleep fuel. unfold speed in Hspeed.
  destruct (Hstatus _ HR) as (body & d & v & w2 & Hget & Hjson & Hv & Hb & HR2).
  pose proof (set_device_state_ok 1 st _ _ _ _ _ Hcmd Hget Hjson) as Hset.
  unfold set_is_on. rewrite (bind_returns _ _ _ _ _ Hspeed). cbv beta.
  rewrite Hoff. cbn [negb]. cbv beta iota.
  rewrite (bind_returns _ _ _ _ _ Hset). cbv beta.
  by apply (wait_for_doors_stuck R (self st) Hstatus Hsleep fuel _ d v).
Qed.

End Power.

Section Cache_edges.
Context {P : Platform}.

(** X12.  A cache without the key [fanspd]: reading the state or the
    speed, stepping the speed, switching on and setting a speed other
    than 0 all raise [KeyError] for that key before anything is sent. *)
Theorem missing_fanspd (st : state) (d : gmap string value) :
  _data (self st) = JDict d ->
  d !! "fanspd" = None ->
  is_on st = Raises (KeyError "fanspd") st /\
  speed st = Raises (KeyError "fanspd") st /\
  speed_up st = Raises (KeyError "fanspd") st /\
  slow_down st = Raises (KeyError "fanspd") st /\
  (forall fuel, set_is_on fuel true st = Raises (KeyError "fanspd") st) /\
  (forall fuel target, target <> 0%Z ->
     set_speed fuel target st = Raises (KeyError "fanspd") st).
Proof.
  intros Hd Hk.
  assert (data_item "fanspd" st = Raises (KeyError "fanspd") st) as Hitem.
  { unfold data_item. rewrite Hd. simpl. by rewrite Hk. }
  split_and!.
  - unfold is_on, bind. by rewrite Hitem.
  - done.
  - unfold speed_up, bind. by rewrite Hitem.
  - unfold slow_down, bind. by rewrite Hitem.
  - intros fuel. unfold set_is_on, bind. by rewrite Hitem.
  - intros fuel target Hne. unfold set_speed.
    destruct (Z.eqb_spec target 0) as [?|_]; [done|].
    unfold bind, is_on, bind. by rewrite Hitem.
Qed.

(** X13.  A cache without the key [model]: [max_speed] raises [KeyError]
    for it, and so does [speed_up] from speed 1 on, before anything is
    sent; below speed 1 [speed_up] returns without looking for the
    model. *)
Theorem speed_up_without_model (st : state) (d : gmap string value) (n : Z) :
  _data (self st) = JDict d ->
  d !! "fanspd" = Some (JInt n) ->
  d !! "model" = None ->
  max_speed st = Raises (KeyError "model") st /\
  ((n < 1)%Z -> speed_up st = Returns tt st) /\
  ((1 <= n)%Z -> speed_up st = Raises (KeyError "model") st).
Proof.
  intros Hd Hn Hm.
  assert (data_item "model" st = Raises (KeyError "model") st) as Hmodel.
  { unfold data_item. rewrite Hd. simpl. by rewrite Hm. }
  pose proof (data_item_lookup st d "fanspd" _ Hd Hn) as Hspeed.
  split_and!.
  - unfold max_speed, bind. by rewrite Hmodel.
  - intros Hlt. unfold speed_up. rewrite (bind_returns _ _ _ _ _ Hspeed).
    unfold py_order. simpl. unfold bind, ret.
    by destruct (Z.compare_spec n 1); try lia.
  - intros Hge. unfold speed_up. rewrite (bind_returns _ _ _ _ _ Hspeed).
    unfold py_order. simpl. unfold bind at 1, ret.
    destruct (Z.compare_spec n 1); try lia; simpl; unfold bind; by rewrite Hmodel.
Qed.

(** X14.  A cached speed that is a string, not a number: the fan counts
    as on when the string is not empty, and every comparison of the speed
    with a number raises [TypeError] before anything is sent. *)
Theorem string_speed (st : state) (d : gmap string value) (s : string) :
  _data (self st) = JDict d ->
  d !! "fanspd" = Some (JStr s) ->
  s <> EmptyString ->
  is_on st = Returns true st /\
  speed_up st = Raises TypeError st /\
  slow_down st = Raises TypeError st /\
  (forall fuel target, target <> 0%Z ->
     set_speed fuel target st = Raises TypeError st).
Proof.
  intros Hd Hs Hne.
  pose proof (data_item_lookup st d "fanspd" _ Hd Hs) as Hspeed.
  assert (is_on st = Returns true st) as Hon.
  { unfold is_on. rewrite (bind_returns _ _ _ _ _ Hspeed). simpl. unfold ret.
    destruct (String.eqb_spec s EmptyString); [done|done]. }
  split_and!.
  - done.
  - unfold speed_up. by rewrite (bind_returns _ _ _ _ _ Hspeed).
  - unfold slow_down. by rewrite (bind_returns _ _ _ _ _ Hspeed).
  - intros fuel target Ht. unfold set_speed.
    destruct (Z.eqb_spec target 0) as [?|_]; [done|].
    rewrite (bind_returns _ _ _ _ _ Hon). cbn [negb]. cbv beta iota.
    rewrite (bind_returns (ret tt) _ st tt st) by done. cbv beta.
    by rewrite (bind_returns _ _ _ _ _ Hspeed).
Qed.

End Cache_edges.

Section Filter_keeps.
Context {P : Platform}.

Lemma line_start_at_bol pre (s : text) :
  line_start (pre ++ s) (length pre) -> at_bol (last_of None pre) = true.
Proof.
  unfold line_start, last_of. intros [H|(i & Hi & Hnl)].
  - by destruct pre.
  - rewrite lookup_app_l in Hnl by lia.
    rewrite last_lookup, Hi. simpl. by rewrite Hnl.
Qed.

Lemma marker_all_dot : forallb is_dot server_response_quote = true.
Proof. done. Qed.

Lemma forallb_not_elem (p : N -> bool) (l : text) c :
  forallb p l = true -> p c = false -> c ∉ l.
Proof.
  intros Hl Hc Hin. apply list_elem_of_lookup in Hin as [i Hi].
  by rewrite (forallb_lookup _ _ _ _ Hl Hi) in Hc.
Qed.

(** Where the rest of a line ends is fixed by the text. *)
Lemma eol_split_unique (t1 t2 r1 r2 : text) :
  forallb is_dot t1 = true -> forallb is_dot t2 = true ->
  at_eol r1 = true -> at_eol r2 = true ->
  t1 ++ r1 = t2 ++ r2 -> t1 = t2 /\ r1 = r2.
Proof.
  revert t2. induction t1 as [|x t1 IH]; intros t2 H1 H2 He1 He2 H.
  - destruct t2 as [|y t2]; [done|]. simpl in *. subst r1.
    apply andb_prop in H2 as [Hy _]. simpl in He1. unfold is_dot in Hy.
    by rewrite He1 in Hy.
  - destruct t2 as [|y t2].
    + simpl in *. subst r2. apply andb_prop in H1 as [Hx _].
      simpl in He2. unfold is_dot in Hx. by rewrite He2 in Hx.
    + simpl in *. injection H as -> H.
      apply andb_prop in H1 as [_ H1]. apply andb_prop in H2 as [_ H2].
      destruct (IH t2 H1 H2 He1 He2 H) as [-> ->]. done.
Qed.

(** The shape of a key line fixes its parts. *)
Lemma key_line_unique (ws ws' : text) c c' (tail tail' rest rest' : text) :
  forallb is_space ws = true -> forallb is_space ws' = true ->
  forallb is_dot tail = true -> forallb is_dot tail' = true ->
  at_eol rest = true -> at_eol rest' = true ->
  ws ++ dquote :: c :: tail ++ rest = ws' ++ dquote :: c' :: tail' ++ rest' ->
  ws = ws' /\ c = c' /\ tail = tail' /\ rest = rest'.
Proof.
  intros Hws Hws' Ht Ht' He He' H.
  apply not_elem_of_app_cons_inv_l in H as (-> & _ & H);
    [|by eapply forallb_not_elem..].
  injection H as -> H.
  destruct (eol_split_unique _ _ _ _ Ht Ht' He He' H) as [-> ->]. done.
Qed.

(** A key line without the marker is no diagnostic line. *)
Lemma key_line_not_diagnostic prev (ws : text) c (tail rest : text) :
  forallb is_space ws = true ->
  at_eol rest = true ->
  ~ occurs server_response_quote (ws ++ dquote :: c :: tail) ->
  forall pe se,
    ~ denotes diagnostic_line prev ((ws ++ dquote :: c :: tail) ++ rest) pe se.
Proof.
  intros Hws Heol Hno pe se Hd.
  unfold diagnostic_line, Plus in Hd. cbn [denotes] in Hd.
  destruct Hd as (p1 & s1 & (p2 & s2 & (c0 & Hs & Hc0 & _) & (m1 & Hs2 & Hm1 & _))
                    & (p3 & s3 & (m2 & Hs1 & Hm2 & _)
                    & (p4 & s4 & (Hs3 & _)
                    & (p5 & s5 & (m3 & Hs4 & Hm3 & _) & (Hse & _ & Hs5))))).
  subst s2 s1 s3 s4 s5.
  set (line := ws ++ dquote :: c :: tail) in *.
  set (dd := m2 ++ server_response_quote ++ m3).
  assert (forallb is_dot dd = true) as Hdd.
  { unfold dd. by rewrite !forallb_app, Hm2, Hm3, marker_all_dot. }
  assert (forallb is_space (c0 :: m1) = true) as Ha by (simpl; by rewrite Hc0, Hm1).
  assert (line ++ rest = (c0 :: m1) ++ dd ++ se) as Heq.
  { rewrite Hs. unfold dd. by do 2 rewrite <-app_assoc. }
  assert (exists k, line = (c0 :: m1) ++ k /\ dd ++ se = k ++ rest) as (k & Hk & Hrest).
  { unfold line in Heq. rewrite <-app_assoc in Heq.
    apply app_eq_inv in Heq as [(k & H1 & H2)|(k & H1 & H2)].
    - exists (k ++ dquote :: c :: tail). unfold line.
      rewrite H1, <-!app_assoc. split; [done|]. by rewrite H2.
    - destruct k as [|x k].
      + exists (dquote :: c :: tail). unfold line.
        rewrite app_nil_r in H1. rewrite H1. split; [done|]. symmetry. exact H2.
      + exfalso. simpl in H2. injection H2 as <- _.
        rewrite H1 in Ha. apply forallb_app_inv in Ha as [_ Ha]. by simpl in Ha. }
  apply Hno. rewrite Hk.
  apply app_eq_inv in Hrest as [(k' & H1 & H2)|(k' & H1 & H2)].
  - destruct k' as [|x k'].
    + rewrite app_nil_r in H1. exists ((c0 :: m1) ++ m2), m3.
      rewrite <-H1. unfold dd. by rewrite <-!app_assoc.
    + exfalso. rewrite H2 in Heol. simpl in Heol. rewrite H1 in Hdd.
      apply forallb_app_inv in Hdd as [_ Hx]. simpl in Hx.
      apply andb_prop in Hx as [Hx _]. unfold is_dot in Hx. by rewrite Heol in Hx.
  - exists ((c0 :: m1) ++ m2), (m3 ++ k').
    rewrite H1. unfold dd. by rewrite <-!app_assoc.
Qed.

(** At the start of a key line without the marker the pattern matches,
    and the match is the line. *)
Lemma status_line_matches_line prev (ws : text) c (tail rest : text) :
  at_bol prev = true ->
  ws <> [] -> forallb is_space ws = true ->
  is_word c = true -> forallb is_dot tail = true ->
  at_eol rest = true ->
  ~ occurs server_response_quote (ws ++ dquote :: c :: tail) ->
  match_at status_line prev ((ws ++ dquote :: c :: tail) ++ rest) = Some rest.
Proof.
  intros Hbol Hne Hws Hc Htail Heol Hno.
  assert (is_Some (match_at status_line prev ((ws ++ dquote :: c :: tail) ++ rest)))
    as [r Hr].
  { assert (exists p', denotes status_line prev
                           ((ws ++ dquote :: c :: tail) ++ rest) p' rest)
      as [p' Hden].
    { eexists. unfold status_line, Plus. cbn [denotes].
      eexists _, _. split.
      { split; [|done]. by apply key_line_not_diagnostic. }
      eexists _, _. split; [done|].
      destruct ws as [|c0 ws]; [done|]. simpl in Hws.
      apply andb_prop in Hws as [Hc0 Hws].
      exists (last_of (Some c0) ws), ((dquote :: c :: tail) ++ rest). split.
      { exists (Some c0), ((ws ++ dquote :: c :: tail) ++ rest).
        split; [by exists c0|]. exists ws.
        split; [|done]. by rewrite <-app_assoc. }
      eexists _, (c :: tail ++ rest). split; [done|].
      eexists _, (tail ++ rest). split.
      { exists (Some c), (tail ++ rest). split; [by exists c|]. by exists []. }
      exists tail. done. }
    unfold match_at.
    apply (proj2 (run_correct status_line) _ _ _ _ _ Hden). by eexists. }
  rewrite Hr. f_equal.
  apply status_line_match in Hr
    as (_ & _ & ws' & c' & tail' & Hs & _ & Hws' & _ & Htail' & Heol').
  rewrite <-(assoc_L (++)) in Hs. simpl in Hs.
  by destruct (key_line_unique _ _ _ _ _ _ _ _ Hws Hws' Htail Htail' Heol Heol' Hs)
    as (_ & _ & _ & ->).
Qed.

(** A position where the pattern matches is not passed over: the scan
    reports a match that starts there or one that reaches beyond it. *)
Lemma scan_covers r (pre : text) : forall skip off prev s2 rest,
  match_at r (last_of prev pre) s2 = Some rest ->
  (skip <= length pre)%nat ->
  exists p m,
    (p, m) ∈ scan r skip off prev (pre ++ s2) /\
    (p <= off + length pre)%nat /\
    (p = (off + length pre)%nat \/ (off + length pre < p + length m)%nat).
Proof.
  induction pre as [|c pre IH]; intros skip off prev s2 rest Hm Hskip.
  - simpl in Hskip. assert (skip = 0%nat) as -> by lia. simpl.
    unfold last_of in Hm. simpl in Hm.
    destruct s2 as [|c s2]; simpl; rewrite Hm.
    + exists off, []. split; [apply elem_of_cons; by left|]. lia.
    + eexists off, _. split; [apply elem_of_cons; by left|]. lia.
  - rewrite last_of_cons in Hm. simpl.
    assert (forall n, (n <= length pre)%nat ->
      exists p m, (p, m) ∈ scan r n (S off) (Some c) (pre ++ s2) /\
        (p <= off + S (length pre))%nat /\
        (p = (off + S (length pre))%nat \/ (off + S (length pre) < p + length m)%nat))
      as Hrec.
    { intros n Hn. destruct (IH n (S off) (Some c) s2 rest Hm Hn) as (p & m & Hin & Hle & Hor).
      exists p, m. split; [done|]. lia. }
    destruct skip as [|n]; [|apply Hrec; simpl in Hskip; lia].
    destruct (match_at r prev (c :: pre ++ s2)) as [rest0|] eqn:E;
      [|apply Hrec; lia].
    set (m0 := take (length (c :: pre ++ s2) - length rest0) (c :: pre ++ s2)).
    destruct (decide (S (length pre) < length m0)%nat) as [Hlong|Hshort].
    + exists off, m0. split; [apply elem_of_cons; by left|]. lia.
    + destruct (Hrec (pred (length m0))) as (p & m & Hin & Hle & Hor); [lia|].
      exists p, m. split; [apply elem_of_cons; by right|]. done.
Qed.

Lemma occurs_in_join (n sep : text) (parts : list text) m :
  m ∈ parts -> occurs n m -> occurs n (join sep parts).
Proof.
  intros Hin (a & b & ->). induction parts as [|x parts IH]; [by apply elem_of_nil in Hin|].
  apply elem_of_cons in Hin as [<-|Hin].
  - destruct parts as [|y parts]; simpl.
    + by exists a, b.
    + exists a, (b ++ sep ++ join sep (y :: parts)). by rewrite <-!(assoc_L (++)).
  - destruct (IH Hin) as (a' & b' & Hj).
    destruct parts as [|y parts]; [by apply elem_of_nil in Hin|].
    change (join sep (x :: y :: parts)) with (x ++ sep ++ join sep (y :: parts)).
    rewrite Hj. exists (x ++ sep ++ a'), b'. by rewrite <-!(assoc_L (++)).
Qed.

(** X15.  What the filter keeps.  A line of the body that starts with
    white space, then a double quote and a word character, and that does
    not hold [server_response] with its closing quote, is kept whole: it
    is the end of one of the matches, after white space only, and so it
    stands in the text that is parsed. *)
Theorem indented_key_line_kept (body pre line rest ws : text) (c : N) (tail : text) :
  body = pre ++ line ++ rest ->
  line_start body (length pre) ->
  at_eol rest = true ->
  line = ws ++ dquote :: c :: tail ->
  ws <> [] -> forallb is_space ws = true ->
  is_word c = true -> forallb is_dot tail = true ->
  ~ occurs server_response_quote line ->
  (exists p m x,
     (p, m) ∈ finditer status_line body /\
     m = x ++ line /\ forallb is_space x = true /\
     (p + length x)%nat = length pre) /\
  occurs line (clean_text body).
Proof.
  intros Hbody Hstart Heol Hline Hne Hws Hc Htail Hno.
  assert (exists p m x,
     (p, m) ∈ finditer status_line body /\
     m = x ++ line /\ forallb is_space x = true /\
     (p + length x)%nat = length pre) as Hkept.
  { rewrite Hbody in Hstart. apply line_start_at_bol in Hstart.
    assert (match_at status_line (last_of None pre) (line ++ rest) = Some rest) as Hm.
    { rewrite Hline in Hno |- *. by apply status_line_matches_line. }
    destruct (scan_covers status_line pre 0 0 None (line ++ rest) rest Hm)
      as (p & m & Hin & Hle & Hor); [lia|].
    rewrite <-Hbody in Hin. fold (finditer status_line body) in Hin.
    exists p, m.
    destruct (finditer_status_line body p m Hin)
      as (pre' & rest' & ws' & c' & tail' & Hbody' & Hp & Hbol' & Hm' & Hshape
          & Hne' & Hws' & Hc' & Htail' & Heol').
    simpl in Hle, Hor.
    assert (exists x, pre = pre' ++ x /\ line ++ rest = drop (length x) m ++ rest'
                      /\ x = take (length x) m /\ (length x <= length m)%nat)
      as (x & Hpre & Hrest & Hx & Hxlen).
    { exists (drop p pre).
      assert (pre' = take p pre) as Hpre'.
      { rewrite <-(take_app_length' pre' (m ++ rest') p) by done.
        rewrite <-Hbody', Hbody. rewrite take_app_le by lia. done. }
      assert (length (drop p pre) = (length pre - p)%nat) as Hlen by apply length_drop.
      assert (pre = pre' ++ drop p pre) as Hsplit
        by (rewrite Hpre'; symmetry; apply take_drop).
      assert (drop p pre ++ line ++ rest = m ++ rest') as Htail2.
      { apply (app_inv_head pre'). rewrite <-Hbody'.
        rewrite (assoc_L (++)), <-Hsplit. done. }
      assert (length (drop p pre) <= length m)%nat as Hxm.
      { rewrite Hlen. destruct Hor as [->|Hlt]; lia. }
      assert (drop p pre = take (length (drop p pre)) m) as Hxt.
      { rewrite <-(take_app_length (drop p pre) (line ++ rest)) at 1.
        rewrite Htail2. by rewrite take_app_le. }
      split_and!; try done.
      apply (app_inv_head (drop p pre)). rewrite Htail2.
      rewrite Hxt at 1. rewrite (assoc_L (++)), take_drop. done. }
    exists x.
    assert (length x <= length ws')%nat as Hxws.
    { destruct (decide (length x <= length ws')%nat) as [|Hgt]; [done|exfalso].
      assert (x <> []) as Hxne by (intros ->; simpl in Hgt; lia).
      assert (last x = Some newline) as Hlast.
      { unfold last_of in Hstart. rewrite Hpre, last_app in Hstart.
        destruct (last x) as [y|] eqn:E; [|by apply last_None in E].
        simpl in Hstart. by apply N.eqb_eq in Hstart as ->. }
      assert (m = x ++ drop (length x) m) as Hmx
        by (rewrite Hx at 1; by rewrite take_drop).
      assert (length x <> 0%nat) as Hx0 by (by destruct x).
      assert (m !! pred (length x) = Some newline) as Hnl.
      { rewrite Hmx, lookup_app_l by lia. by rewrite <-last_lookup. }
      rewrite Hshape, lookup_app_r in Hnl by lia.
      assert (forallb is_dot (dquote :: c' :: tail') = true) as Hdots.
      { simpl. by rewrite (is_word_dot _ Hc'), Htail'. }
      by pose proof (forallb_lookup _ _ _ _ Hdots Hnl). }
    assert (x = take (length x) ws') as Hxw.
    { rewrite Hx at 1. rewrite Hshape. by rewrite take_app_le. }
    assert (drop (length x) m = drop (length x) ws' ++ dquote :: c' :: tail') as Hdrop.
    { rewrite Hshape. rewrite drop_app_le by done. done. }
    rewrite Hdrop, Hline in Hrest. rewrite <-!(assoc_L (++)) in Hrest. simpl in Hrest.
    destruct (key_line_unique ws (drop (length x) ws') c c' tail tail' rest rest')
      as (Hw & <- & <- & <-); try done.
    { rewrite <-(take_drop (length x) ws'), forallb_app in Hws'.
      by apply andb_prop in Hws' as [_ ?]. }
    split_and!; [done| | |].
    - rewrite Hline, Hw, Hshape.
      rewrite <-(take_drop (length x) ws') at 1. rewrite <-Hxw.
      by rewrite <-!(assoc_L (++)).
    - rewrite Hxw. rewrite <-(take_drop (length x) ws'), forallb_app in Hws'.
      by apply andb_prop in Hws' as [? _].
    - rewrite Hpre, length_app. lia. }
  split; [done|].
  destruct Hkept as (p & m & x & Hin & Hm & _ & _).
  unfold clean_text.
  assert (occurs line (join [newline] (clean_list body))) as (a & b & ->).
  { apply occurs_in_join with m.
    - unfold clean_list, findall. apply list_elem_of_fmap. by exists (p, m).
    - exists x, []. by rewrite Hm, app_nil_r. }
  exists (codes "{ " ++ a), (b ++ codes " }"). by rewrite <-!(assoc_L (++)).
Qed.

(** X16.  A body in which no line starts with white space, a compact
    one-line body for one, has nothing that the filter keeps: what is
    parsed is the empty object. *)
Theorem unindented_body_empty (body : text) :
  (forall q c, line_start body q -> body !! q = Some c -> is_space c = false) ->
  clean_list body = [] /\ clean_text body = codes "{  }".
Proof.
  intros Hcol.
  assert (finditer status_line body = []) as Hnone.
  { destruct (finditer status_line body) as [|[p m] l] eqn:E; [done|exfalso].
    assert ((p, m) ∈ finditer status_line body) as Hin
      by (rewrite E; apply elem_of_cons; by left).
    apply finditer_status_line in Hin
      as (pre & rest & ws & c & tail & Hbody & Hp & Hbol & _ & Hm & Hne & Hws & _).
    destruct ws as [|c0 ws]; [done|]. simpl in Hws.
    apply andb_prop in Hws as [Hc0 _].
    rewrite (Hcol p c0) in Hc0; [done| |].
    - rewrite Hbody, <-Hp. by apply at_bol_line_start.
    - rewrite Hbody, Hm, <-Hp. rewrite lookup_app_r by lia.
      by rewrite Nat.sub_diag. }
  unfold clean_text, clean_list, findall. by rewrite Hnone.
Qed.

End Filter_keeps.

(** * The further properties at work on the simulated fans *)

Section Simulated_more.
#[local] Existing Instance sim_platform.

Lemma get_device_state_failure_witness :
  get_device_state (sim_state 3 (sim_at 3 false false))
  = Raises ex_ConnectionError
      (Build_state (sim_fan (sim_snapshot 3)) (sim_at 3 false false)
         [status_request (sim_fan (sim_snapshot 3))]).
Proof.
  apply (get_device_state_failure (sim_state 3 (sim_at 3 false false))
           requests_ConnectionError (sim_at 3 false false)).
  reflexivity.
Defined.

Lemma set_device_state_command_failure_witness :
  set_device_state 2 (sim_state 3 (sim_at 3 false false))
  = Raises ex_ConnectionError
      (Build_state (sim_fan (sim_snapshot 3)) (sim_at 3 false false)
         [command_request (sim_fan (sim_snapshot 3)) 2]).
Proof.
  apply (set_device_state_command_failure (sim_state 3 (sim_at 3 false false))
           2 requests_ConnectionError (sim_at 3 false false)).
  reflexivity.
Defined.

Lemma sim_status_parses (m : Z) :
  (0 <= m <= 5)%Z ->
  json_loads (clean_text (sim_status (sim_at m true false)))
  = Some (JDict (sim_snapshot m)).
Proof.
  intros Hm.
  assert (m = 0 \/ m = 1 \/ m = 2 \/ m = 3 \/ m = 4 \/ m = 5)%Z
    as [-> | [-> | [-> | [-> | [-> | ->]]]]] by lia;
    vm_compute; reflexivity.
Qed.

Lemma set_speed_reaches_witness :
  exists st',
    set_speed 3 4 (sim_state 2 (sim_at 2 true false)) = Returns tt st' /\
    sent st' = rounds (sim_fan (sim_snapshot 2)) 1 2 /\
    speed st' = Returns (JInt 4) st'.
Proof.
  apply (set_speed_reaches (P := sim_platform) (sim_between 2 4)
           (sim_state 2 (sim_at 2 true false)) 3 2 4 2).
  - lia.
  - lia.
  - reflexivity.
  - intros m w Hm [-> Hr]. eexists _, _. split; [reflexivity|].
    split; [reflexivity|]. change (step_delta 2 4) with 1%Z. lia.
  - intros m w [-> Hr]. exists (sim_status (sim_at m true false)).
    exists (sim_snapshot m), (sim_at m true false).
    split; [reflexivity|]. split; [apply sim_status_parses; lia|].
    split; [reflexivity|]. split; [reflexivity|lia].
  - intros m w H. exact H.
  - reflexivity.
  - split; [reflexivity|lia].
  - lia.
Defined.

Lemma set_speed_from_off_witness :
  exists st',
    set_speed 3 3 (sim_state 0 (sim_at 0 true false)) = Returns tt st' /\
    sent st' = rounds (sim_fan (sim_snapshot 0)) 1 3 /\
    speed st' = Returns (JInt 3) st'.
Proof.
  apply (set_speed_from_off (P := sim_platform) (sim_between 0 3)
           (sim_state 0 (sim_at 0 true false)) 3 3).
  - lia.
  - intros m w Hm [-> Hr]. eexists _, _. split; [reflexivity|].
    split; [reflexivity|lia].
  - intros m w [-> Hr]. exists (sim_status (sim_at m true false)).
    exists (sim_snapshot m), (JInt 0), (sim_at m true false).
    split; [reflexivity|]. split; [apply sim_status_parses; lia|].
    split; [reflexivity|]. split; [reflexivity|].
    split; [reflexivity|]. split; [reflexivity|lia].
  - intros m w H. exact H.
  - reflexivity.
  - split; [reflexivity|lia].
  - vm_compute. lia.
Defined.

Lemma set_speed_stops_when_off_witness :
  set_speed 2 (-1) (sim_state 1 (sim_at 1 true false))
  = Returns tt
      (Build_state (sim_fan (sim_snapshot 0)) (sim_at 0 true false)
         (rounds (sim_fan (sim_snapshot 1)) 3 1)).
Proof.
  apply (set_speed_stops_when_off (sim_state 1 (sim_at 1 true false)) 2 1 (-1)
           (codes "<fanspd/>") (sim_status (sim_at 0 true false))
           (sim_at 0 true false) (sim_at 0 true false) (sim_snapshot 0)).
  - lia.
  - lia.
  - lia.
  - reflexivity.
  - reflexivity.
  - reflexivity.
  - apply sim_status_parses. lia.
  - reflexivity.
  - lia.
Defined.

Lemma missing_fanspd_witness :
  slow_down (sim_state_with (JDict ∅) (sim_at 3 true false))
    = Raises (KeyError "fanspd") (sim_state_with (JDict ∅) (sim_at 3 true false)) /\
  set_speed 5 2 (sim_state_with (JDict ∅) (sim_at 3 true false))
    = Raises (KeyError "fanspd") (sim_state_with (JDict ∅) (sim_at 3 true false)).
Proof.
  destruct (missing_fanspd (sim_state_with (JDict ∅) (sim_at 3 true false)) ∅)
    as (_ & _ & _ & Hslow & _ & Hset); [reflexivity|apply lookup_empty|].
  split; [exact Hslow|]. apply Hset. lia.
Defined.

Lemma speed_up_without_model_witness :
  speed_up (sim_state_with (JDict {[ "fanspd" := JInt 3 ]}) (sim_at 3 true false))
    = Raises (KeyError "model")
        (sim_state_with (JDict {[ "fanspd" := JInt 3 ]}) (sim_at 3 true false)) /\
  speed_up (sim_state_with (JDict {[ "fanspd" := JInt 0 ]}) (sim_at 0 true false))
    = Returns tt
        (sim_state_with (JDict {[ "fanspd" := JInt 0 ]}) (sim_at 0 true false)).
Proof.
  split.
  - apply (speed_up_without_model
             (sim_state_with (JDict {[ "fanspd" := JInt 3 ]}) (sim_at 3 true false))
             {[ "fanspd" := JInt 3 ]} 3);
      [reflexivity|vm_compute; reflexivity|vm_compute; reflexivity|lia].
  - apply (speed_up_without_model
             (sim_state_with (JDict {[ "fanspd" := JInt 0 ]}) (sim_at 0 true false))
             {[ "fanspd" := JInt 0 ]} 0);
      [reflexivity|vm_compute; reflexivity|vm_compute; reflexivity|lia].
Defined.

Lemma string_speed_witness :
  speed_up (sim_state_with (JDict {[ "fanspd" := JStr "3" ]}) (sim_at 3 true false))
    = Raises TypeError
        (sim_state_with (JDict {[ "fanspd" := JStr "3" ]}) (sim_at 3 true false)).
Proof.
  apply (string_speed
           (sim_state_with (JDict {[ "fanspd" := JStr "3" ]}) (sim_at 3 true false))
           {[ "fanspd" := JStr "3" ]} "3");
    [reflexivity|vm_compute; reflexivity|discriminate].
Defined.

Lemma indented_key_line_kept_witness :
  occurs (sketch "  'fanspd': 5,") (clean_text two_lines).
Proof.
  apply (indented_key_line_kept two_lines (sketch "{|") (sketch "  'fanspd': 5,")
           (sketch "|}") (codes "  ") 102 (sketch "anspd': 5,")).
  - reflexivity.
  - right. exists 1%nat. split; reflexivity.
  - reflexivity.
  - reflexivity.
  - discriminate.
  - reflexivity.
  - reflexivity.
  - reflexivity.
  - intros H. apply occurs_length in H. vm_compute in H. lia.
Defined.

Lemma unindented_body_empty_witness :
  clean_list compact_body = [] /\ clean_text compact_body = codes "{  }".
Proof.
  apply (unindented_body_empty compact_body).
  intros q c [->|(i & -> & Hi)].
  - intros [= <-]. reflexivity.
  - exfalso. do 12 (destruct i as [|i]; [discriminate|]). discriminate.
Defined.

End Simulated_more.

Section Rigged.
#[local] Existing Instance rig_platform.

Lemma set_device_state_after_answer_witness :
  set_device_state 1
    (rig_state (JDict (rig_snapshot 2 0))
       (rig_at 2 0 false [None; Some requests_ReadTimeout]))
  = Raises ex_Timeout
      (Build_state (rig_fan (JDict (rig_snapshot 2 0))) (rig_at 3 0 false [])
         [command_request (rig_fan (JDict (rig_snapshot 2 0))) 1;
          status_request (rig_fan (JDict (rig_snapshot 2 0)))]).
Proof.
  apply (proj1 (set_device_state_after_answer
                  (rig_state (JDict (rig_snapshot 2 0))
                     (rig_at 2 0 false [None; Some requests_ReadTimeout]))
                  1 (codes "<fanspd/>")
                  (rig_at 3 0 false [Some requests_ReadTimeout]) eq_refl)
           requests_ReadTimeout (rig_at 3 0 false [])).
  reflexivity.
Defined.

Lemma set_speed_never_gives_up_witness :
  set_speed 40 5
    (rig_state (JDict (rig_snapshot 3 0)) (rig_at 3 0 true [])) = Unfinished.
Proof.
  apply (set_speed_never_gives_up (P := rig_platform) (rig_is (rig_at 3 0 true []))
           (rig_state (JDict (rig_snapshot 3 0)) (rig_at 3 0 true [])) 3 5).
  - lia.
  - lia.
  - lia.
  - intros w ->. eexists _, _. split; reflexivity.
  - intros w ->. exists (rig_status (rig_at 3 0 true [])).
    exists (rig_snapshot 3 0), (rig_at 3 0 true []).
    split; [reflexivity|]. split; [vm_compute; reflexivity|].
    split; reflexivity.
  - intros w ->. reflexivity.
  - reflexivity.
  - reflexivity.
Defined.

Lemma rig_status_parses (j : nat) :
  json_loads (clean_text (rig_status (rig_at 1 j false [])))
  = Some (JDict (rig_snapshot 1 (match j with O => 0 | S _ => 1 end))).
Proof. destruct j; vm_compute; reflexivity. Qed.

Lemma power_on_waits_for_doors_witness :
  exists st' d' v',
    set_is_on 3 true
      (rig_state (JDict (rig_snapshot 0 0)) (rig_at 0 2 false [])) = Returns tt st' /\
    sent st' =
      [command_request (rig_fan (JDict (rig_snapshot 0 0))) 1;
       status_request (rig_fan (JDict (rig_snapshot 0 0)));
       status_request (rig_fan (JDict (rig_snapshot 0 0)));
       status_request (rig_fan (JDict (rig_snapshot 0 0)))] /\
    _data (self st') = JDict d' /\
    d' !! "doorinprocess" = Some v' /\ py_bool v' = false.
Proof.
  apply (power_on_waits_for_doors (P := rig_platform) rig_doors
           (rig_state (JDict (rig_snapshot 0 0)) (rig_at 0 2 false []))
           3 2 (JInt 0) (codes "<fanspd/>") (rig_at 1 2 false [])).
  - reflexivity.
  - reflexivity.
  - reflexivity.
  - reflexivity.
  - intros j w ->. exists (rig_status (rig_at 1 j false [])).
    exists (rig_snapshot 1 (match j with O => 0 | S _ => 1 end)).
    exists (JInt (match j with O => 0 | S _ => 1 end)), (rig_at 1 j false []).
    split; [reflexivity|]. split; [apply rig_status_parses|].
    split; [reflexivity|]. split; [by destruct j|reflexivity].
  - intros j w ->. reflexivity.
  - lia.
Defined.

Lemma power_on_never_gives_up_witness :
  set_is_on 40 true
    (rig_state (JDict (rig_snapshot 0 0)) (rig_at 0 1 true [])) = Unfinished.
Proof.
  apply (power_on_never_gives_up (P := rig_platform) (rig_is (rig_at 0 1 true []))
           (rig_state (JDict (rig_snapshot 0 0)) (rig_at 0 1 true []))
           (JInt 0) (codes "<fanspd/>") (rig_at 0 1 true [])).
  - reflexivity.
  - reflexivity.
  - reflexivity.
  - reflexivity.
  - intros w ->. exists (rig_status (rig_at 0 1 true [])).
    exists (rig_snapshot 0 1), (JInt 1), (rig_at 0 1 true []).
    split; [reflexivity|]. split; [vm_compute; reflexivity|].
    split; [reflexivity|]. split; reflexivity.
  - intros w ->. reflexivity.
Defined.

End Rigged.
